(** * Connection-string parsing and SAS issuance of the upload service

    A shallow embedding of [utils.js] ([getAccountNameFromUrl],
    [getProxyUriFromDevConnString], [getValueInConnString],
    [extractConnectionStringParts]) and of [credentials/index.js]
    ([generateSasToken]).

    JavaScript strings are modelled by [string]; a character stands for the
    UTF-16 code unit of the same number, so the model covers the strings whose
    code units are below 256.  A JavaScript exception is a [Throw] in the
    [result] type; [undefined] and [null] are [None]. *)

From Stdlib Require Import String Ascii List ZArith Lia Bool NArith.
From Stdlib Require Import Init.Byte.
Import ListNotations.
Local Open Scope string_scope.
Local Open Scope list_scope.

Set Implicit Arguments.

(** ** Exceptions and results *)

(** [Error msg] is [new Error(msg)]; [TypeError] is the exception the
    runtime raises when a property of [undefined] or [null] is read. *)
Inductive exn : Type :=
| Error (message : string)
| TypeError.

Inductive result (A : Type) : Type :=
| Ok (a : A)
| Throw (e : exn).

Arguments Ok {A} a.
Arguments Throw {A} e.

Definition bind {A B : Type} (r : result A) (k : A -> result B) : result B :=
  match r with
  | Ok a => k a
  | Throw e => Throw e
  end.

Notation "x <- r ;; k" := (bind r (fun x => k))
  (at level 61, r at next level, right associativity).

(** Reading a property of a value that may be [undefined]/[null]. *)
Definition deref {A : Type} (o : option A) : result A :=
  match o with
  | Some a => Ok a
  | None => Throw TypeError
  end.

(** ** The string methods the parser calls *)

Module JS.

(** [!s] for a string. *)
Definition falsy (s : string) : bool :=
  match s with
  | EmptyString => true
  | String _ _ => false
  end.

(** [!x] for a value that is a string or [undefined]. *)
Definition falsy_opt (o : option string) : bool :=
  match o with
  | None => true
  | Some s => falsy s
  end.

(** [s.startsWith(t)] *)
Fixpoint startsWith (s t : string) {struct t} : bool :=
  match t, s with
  | EmptyString, _ => true
  | String b t', String a s' => Ascii.eqb a b && startsWith s' t'
  | String _ _, EmptyString => false
  end.

(** [s.indexOf(t)]: position of the leftmost occurrence. *)
Fixpoint indexOf (s t : string) : option nat :=
  if startsWith s t then Some 0
  else match s with
       | EmptyString => None
       | String _ s' => option_map S (indexOf s' t)
       end.

(** [s.search(t)] for a pattern [t] without regular-expression
    metacharacters: the index of the leftmost match, or -1. *)
Definition search (s t : string) : Z :=
  match indexOf s t with
  | Some i => Z.of_nat i
  | None => (-1)%Z
  end.

(** [s.endsWith(t)] *)
Fixpoint endsWith (s t : string) : bool :=
  String.eqb s t ||
  match s with
  | EmptyString => false
  | String _ s' => endsWith s' t
  end.

(** [s.slice(0, -1)] *)
Fixpoint slice_0_m1 (s : string) : string :=
  match s with
  | EmptyString => EmptyString
  | String a s' =>
      match s' with
      | EmptyString => EmptyString
      | String _ _ => String a (slice_0_m1 s')
      end
  end.

(** [s.split(sep)] for a one-character separator. *)
Fixpoint split (sep : ascii) (s : string) : list string :=
  match s with
  | EmptyString => [EmptyString]
  | String a s' =>
      if Ascii.eqb a sep then EmptyString :: split sep s'
      else match split sep s' with
           | h :: t => String a h :: t
           | [] => [String a EmptyString]
           end
  end.

(** White space and line terminators below 256: TAB, LF, VT, FF, CR, SP,
    NBSP. *)
Definition isWhiteSpace (a : ascii) : bool :=
  let n := nat_of_ascii a in
  (((9 <=? n) && (n <=? 13)) || (n =? 32) || (n =? 160))%nat.

(** Line terminators below 256 (LF and CR): what [.] does not match. *)
Definition isLineTerminator (a : ascii) : bool :=
  let n := nat_of_ascii a in
  ((n =? 10) || (n =? 13))%nat.

Fixpoint trimStart (s : string) : string :=
  match s with
  | EmptyString => EmptyString
  | String a s' => if isWhiteSpace a then trimStart s' else s
  end.

Fixpoint trimEnd (s : string) : string :=
  match s with
  | EmptyString => EmptyString
  | String a s' =>
      let r := trimEnd s' in
      if isWhiteSpace a && falsy r then EmptyString else String a r
  end.

(** [s.trim()] *)
Definition trim (s : string) : string := trimEnd (trimStart s).

(** What a greedy dot-star group captures at the head of [s]: the longest
    run without a line terminator. *)
Fixpoint dotStar (s : string) : string :=
  match s with
  | EmptyString => EmptyString
  | String a s' => if isLineTerminator a then EmptyString else String a (dotStar s')
  end.

Fixpoint drop (n : nat) (s : string) : string :=
  match n, s with
  | O, _ => s
  | S n', String _ s' => drop n' s'
  | S _, EmptyString => EmptyString
  end.

(** Element 1 of [s.match(prefix + group)], where [group] is a greedy
    dot-star capture group and [prefix] has no metacharacters: [None] when
    there is no match ([match] returns [null]), otherwise the first capture
    group of the leftmost match. *)
Definition match_group1 (s prefix : string) : option string :=
  match indexOf s prefix with
  | None => None
  | Some i => Some (dotStar (drop (i + String.length prefix) s))
  end.

(** [s.toLowerCase()] on code units below 256: A-Z and the Latin-1 capitals
    (0xC0-0xDE without the multiplication sign 0xD7) move up by 32. *)
Definition lowerChar (a : ascii) : ascii :=
  let n := nat_of_ascii a in
  if (((65 <=? n) && (n <=? 90)) ||
      ((192 <=? n) && (n <=? 222) && negb (n =? 215)))%nat
  then ascii_of_nat (n + 32) else a.

Fixpoint toLowerCase (s : string) : string :=
  match s with
  | EmptyString => EmptyString
  | String a s' => String (lowerChar a) (toLowerCase s')
  end.

End JS.

(** ** The parsed connection string *)

(** What [URLBuilder.parse] returns, read through its getters; a part the
    text does not have is [undefined]. *)
Record URLBuilder : Type := mkURLBuilder {
  getScheme : option string;
  getHost : option string;
  getPort : option string;
  getPath : option string;
  getQuery : option string
}.

(** The two objects [extractConnectionStringParts] returns, told apart by
    their [kind] field. *)
Inductive ConnectionString : Type :=
| AccountConnString (url accountName : string) (accountKey : list byte)
                    (proxyUri : string)
| SASConnString (url accountName accountSas : string).

Definition url_of (c : ConnectionString) : string :=
  match c with
  | AccountConnString u _ _ _ => u
  | SASConnString u _ _ => u
  end.

Definition accountName_of (c : ConnectionString) : string :=
  match c with
  | AccountConnString _ n _ _ => n
  | SASConnString _ n _ => n
  end.

(** The [accountKey] property: [undefined] on a SAS object. *)
Definition accountKey_of (c : ConnectionString) : option (list byte) :=
  match c with
  | AccountConnString _ _ k _ => Some k
  | SASConnString _ _ _ => None
  end.

Definition accountSas_of (c : ConnectionString) : option string :=
  match c with
  | AccountConnString _ _ _ _ => None
  | SASConnString _ _ s => Some s
  end.

Definition proxyUri_of (c : ConnectionString) : option string :=
  match c with
  | AccountConnString _ _ _ p => Some p
  | SASConnString _ _ _ => None
  end.

Definition isAccountConnString (c : ConnectionString) : bool :=
  match c with
  | AccountConnString _ _ _ _ => true
  | SASConnString _ _ _ => false
  end.

(** ** utils.js *)

Section Utils.

(** [URLBuilder.parse] of the HTTP client library. *)
Variable URLBuilder_parse : string -> URLBuilder.

(** [Buffer.from(s, "base64")] of the runtime. *)
Variable Buffer_from_base64 : string -> list byte.

(** The emulator's connection string; its declaration is not part of the
    listing of utils.js. *)
Variable DevelopmentConnectionString : string.

Definition getAccountNameFromUrl (url : string) : result string :=
  let parsedUrl := URLBuilder_parse url in
  let attempt : result string :=
    host <- deref (getHost parsedUrl) ;;
    accountName <-
      (if match nth_error (JS.split "." host) 1 with
          | Some label => String.eqb label "blob"
          | None => false
          end
       then Ok (nth_error (JS.split "." host) 0)
       else
         path <- deref (getPath parsedUrl) ;;
         Ok (nth_error (JS.split "/" path) 1)) ;;
    match accountName with
    | Some name =>
        if JS.falsy name then Throw (Error "Provided accountName is invalid.")
        else Ok name
    | None => Throw (Error "Provided accountName is invalid.")
    end in
  match attempt with
  | Ok accountName => Ok accountName
  | Throw _ =>
      Throw (Error "Unable to extract accountName with provided information.")
  end.

(** The [for] loop of [getProxyUriFromDevConnString]: every matching
    element assigns [proxyUri], and the loop runs to the end. *)
Fixpoint proxyUri_loop (elements : list string) (proxyUri : string)
  : result string :=
  match elements with
  | [] => Ok proxyUri
  | element :: rest =>
      if JS.startsWith (JS.trim element) "DevelopmentStorageProxyUri="
      then
        v <- deref (JS.match_group1 (JS.trim element)
                      "DevelopmentStorageProxyUri=") ;;
        proxyUri_loop rest v
      else proxyUri_loop rest proxyUri
  end.

Definition getProxyUriFromDevConnString (connectionString : string)
  : result string :=
  let proxyUri := "" in
  if negb (Z.eqb (JS.search connectionString "DevelopmentStorageProxyUri=") (-1))
  then proxyUri_loop (JS.split ";" connectionString) proxyUri
  else Ok proxyUri.

(** The [for] loop of [getValueInConnString]: it returns at the first
    element that starts with [argument].  The pattern the code builds from
    [argument] is read as literal text, which is what the regular
    expression does when [argument] has none of its syntax characters, as
    in the six calls the parser makes; a property stated for every key
    carries that condition. *)
Fixpoint getValue_loop (elements : list string) (argument : string)
  : result string :=
  match elements with
  | [] => Ok ""
  | element :: rest =>
      if JS.startsWith (JS.trim element) argument
      then deref (JS.match_group1 (JS.trim element) (argument ++ "=")%string)
      else getValue_loop rest argument
  end.

Definition getValueInConnString (connectionString argument : string)
  : result string :=
  getValue_loop (JS.split ";" connectionString) argument.

(** The branch under [// Account connection string]. *)
Definition accountPath (connectionString blobEndpoint proxyUri : string)
  : result ConnectionString :=
  accountName <- getValueInConnString connectionString "AccountName" ;;
  keyText <- getValueInConnString connectionString "AccountKey" ;;
  let accountKey := Buffer_from_base64 keyText in
  blobEndpoint <-
    (if JS.falsy blobEndpoint then
       defaultEndpointsProtocol <-
         getValueInConnString connectionString "DefaultEndpointsProtocol" ;;
       let protocol := JS.toLowerCase defaultEndpointsProtocol in
       if negb (String.eqb protocol "https") && negb (String.eqb protocol "http")
       then Throw (Error "Invalid DefaultEndpointsProtocol in the provided Connection String. Expecting 'https' or 'http'")
       else
         endpointSuffix <-
           getValueInConnString connectionString "EndpointSuffix" ;;
         if JS.falsy endpointSuffix
         then Throw (Error "Invalid EndpointSuffix in the provided Connection String")
         else Ok (defaultEndpointsProtocol ++ "://" ++ accountName
                    ++ ".blob." ++ endpointSuffix)%string
     else Ok blobEndpoint) ;;
  if JS.falsy accountName
  then Throw (Error "Invalid AccountName in the provided Connection String")
  else if Nat.eqb (List.length accountKey) 0
  then Throw (Error "Invalid AccountKey in the provided Connection String")
  else Ok (AccountConnString blobEndpoint accountName accountKey proxyUri).

(** The branch under [// SAS connection string]. *)
Definition sasPath (connectionString blobEndpoint : string)
  : result ConnectionString :=
  accountSas <- getValueInConnString connectionString "SharedAccessSignature" ;;
  accountName <- getAccountNameFromUrl blobEndpoint ;;
  if JS.falsy blobEndpoint
  then Throw (Error "Invalid BlobEndpoint in the provided SAS Connection String")
  else if JS.falsy accountSas
  then Throw (Error "Invalid SharedAccessSignature in the provided SAS Connection String")
  else if JS.falsy accountName
  then Throw (Error "Invalid AccountName in the provided SAS Connection String")
  else Ok (SASConnString blobEndpoint accountName accountSas).

(** [blobEndpoint.endsWith("/") ? blobEndpoint.slice(0, -1) : blobEndpoint] *)
Definition stripSlash (blobEndpoint : string) : string :=
  if JS.endsWith blobEndpoint "/" then JS.slice_0_m1 blobEndpoint
  else blobEndpoint.

(** The test of the [if] that chooses between the two branches. *)
Definition isAccountShaped (connectionString : string) : bool :=
  negb (Z.eqb (JS.search connectionString "DefaultEndpointsProtocol=") (-1)) &&
  negb (Z.eqb (JS.search connectionString "AccountKey=") (-1)).

(** The function from the line that reads [BlobEndpoint] on, on the
    connection string and proxy URI in force there. *)
Definition extractFrom (connectionString proxyUri : string)
  : result ConnectionString :=
  blobEndpoint <- getValueInConnString connectionString "BlobEndpoint" ;;
  let blobEndpoint := stripSlash blobEndpoint in
  if isAccountShaped connectionString
  then accountPath connectionString blobEndpoint proxyUri
  else sasPath connectionString blobEndpoint.

Definition extractConnectionStringParts (connectionString : string)
  : result ConnectionString :=
  let proxyUri := "" in
  if JS.startsWith connectionString "UseDevelopmentStorage=true"
  then
    proxyUri <- getProxyUriFromDevConnString connectionString ;;
    extractFrom DevelopmentConnectionString proxyUri
  else extractFrom connectionString proxyUri.

End Utils.

(** ** The spec's error taxonomy *)

Inductive ErrorKind : Type :=
| InvalidAccountName
| InvalidAccountKey
| InvalidBlobEndpoint
| InvalidSharedAccessSignature
| InvalidProtocol
| InvalidEndpointSuffix
| UnparseableHost
| UnsupportedCredentialKind.

(** The kind a thrown exception stands for, read off its message.  No
    message of the program stands for [UnsupportedCredentialKind], and a
    [TypeError] of the runtime has no kind. *)
Definition classify (e : exn) : option ErrorKind :=
  match e with
  | TypeError => None
  | Error m =>
      if String.eqb m "Invalid AccountName in the provided Connection String"
      then Some InvalidAccountName
      else if String.eqb m "Invalid AccountName in the provided SAS Connection String"
      then Some InvalidAccountName
      else if String.eqb m "Invalid AccountKey in the provided Connection String"
      then Some InvalidAccountKey
      else if String.eqb m "Invalid BlobEndpoint in the provided SAS Connection String"
      then Some InvalidBlobEndpoint
      else if String.eqb m "Invalid SharedAccessSignature in the provided SAS Connection String"
      then Some InvalidSharedAccessSignature
      else if String.eqb m "Invalid DefaultEndpointsProtocol in the provided Connection String. Expecting 'https' or 'http'"
      then Some InvalidProtocol
      else if String.eqb m "Invalid EndpointSuffix in the provided Connection String"
      then Some InvalidEndpointSuffix
      else if String.eqb m "Unable to extract accountName with provided information."
      then Some UnparseableHost
      else None
  end.

Definition failsWith {A : Type} (r : result A) (k : ErrorKind) : Prop :=
  exists e, r = Throw e /\ classify e = Some k.

Definition succeeds {A : Type} (r : result A) : Prop :=
  exists a, r = Ok a.

(** ** credentials/index.js *)

Record SasToken : Type := mkSasToken {
  sasKey : string;
  url : string
}.

Section Credentials.

Variable URLBuilder_parse : string -> URLBuilder.
Variable Buffer_from_base64 : string -> list byte.
Variable DevelopmentConnectionString : string.

(** [buffer.toString('base64')] of the runtime. *)
Variable Buffer_toString_base64 : list byte -> string.

(** The storage SDK: the permission parser, which throws on a letter it
    does not know, and the signer.  [addHours d h] is the date [d] after
    [d.setHours(d.getHours() + h)], the runtime's arithmetic on the local
    wall clock; nothing is assumed about it. *)
Variable ContainerSASPermissions : Type.
Variable ContainerSASPermissions_parse : string -> result ContainerSASPermissions.
Variable Date : Type.
Variable addHours : Date -> Z -> Date.
Variable generateBlobSASQueryParameters :
  string -> ContainerSASPermissions -> Date -> string * string -> result string.

(** [generateSasToken], with the instant [new Date()] reads as [now]. *)
Definition generateSasToken (now : Date)
  (connectionString container permissions : string) : result SasToken :=
  parts <- extractConnectionStringParts URLBuilder_parse Buffer_from_base64
             DevelopmentConnectionString connectionString ;;
  let accountKey := accountKey_of parts in
  let accountName := accountName_of parts in
  let url := url_of parts in
  key <- deref accountKey ;;
  let sharedKeyCredential := (accountName, Buffer_toString_base64 key) in
  let expiryDate := addHours now 2 in
  perms <- ContainerSASPermissions_parse permissions ;;
  sasKey <- generateBlobSASQueryParameters container perms expiryDate
              sharedKeyCredential ;;
  Ok (mkSasToken sasKey url).

End Credentials.

(** ** The library and runtime functions the listing calls *)

(** *** [URLBuilder.parse] *)

Module CoreHttp.

Inductive URLTokenizerState : Type :=
| SCHEME_OR_HOST | HOST | PORT | PATH | QUERY | DONE.

Inductive URLTokenType : Type :=
| TSCHEME | THOST | TPORT | TPATH | TQUERY.

(** The tokenizer: the text from the current index on, and the state. *)
Record URLTokenizer : Type := mkTokenizer {
  remaining : string;
  currentState : URLTokenizerState
}.

(** [readWhile]: the characters read and the text left. *)
Fixpoint readWhile (condition : ascii -> bool) (s : string) : string * string :=
  match s with
  | EmptyString => (EmptyString, EmptyString)
  | String a s' =>
      if condition a
      then let (r, rest) := readWhile condition s' in (String a r, rest)
      else (EmptyString, s)
  end.

Definition readUntilCharacter (terminating : list ascii) (s : string)
  : string * string :=
  readWhile (fun c => negb (existsb (Ascii.eqb c) terminating)) s.

Definition stateAt (rest : string) (onColon : URLTokenizerState)
  : URLTokenizerState :=
  match rest with
  | EmptyString => DONE
  | String c _ =>
      if Ascii.eqb c ":" then onColon
      else if Ascii.eqb c "/" then PATH
      else QUERY
  end.

Definition nextSchemeOrHost (s : string)
  : URLTokenType * string * URLTokenizer :=
  let (schemeOrHost, rest) := readUntilCharacter [":"; "/"; "?"]%char s in
  match rest with
  | EmptyString => (THOST, schemeOrHost, mkTokenizer rest DONE)
  | String c _ =>
      if Ascii.eqb c ":" then
        if JS.startsWith rest "://"
        then (TSCHEME, schemeOrHost, mkTokenizer rest HOST)
        else (THOST, schemeOrHost, mkTokenizer rest PORT)
      else (THOST, schemeOrHost, mkTokenizer rest (stateAt rest PORT))
  end.

Definition nextHost (s : string) : URLTokenType * string * URLTokenizer :=
  let s := if JS.startsWith s "://" then JS.drop 3 s else s in
  let (host, rest) := readUntilCharacter [":"; "/"; "?"]%char s in
  (THOST, host, mkTokenizer rest (stateAt rest PORT)).

Definition nextPort (s : string) : URLTokenType * string * URLTokenizer :=
  let s := if JS.startsWith s ":" then JS.drop 1 s else s in
  let (port, rest) := readUntilCharacter ["/"; "?"]%char s in
  (TPORT, port, mkTokenizer rest (stateAt rest QUERY)).

Definition nextPath (s : string) : URLTokenType * string * URLTokenizer :=
  let (path, rest) := readUntilCharacter ["?"]%char s in
  (TPATH, path,
   mkTokenizer rest (match rest with EmptyString => DONE | _ => QUERY end)).

Definition nextQuery (s : string) : URLTokenType * string * URLTokenizer :=
  let s := if JS.startsWith s "?" then JS.drop 1 s else s in
  (TQUERY, s, mkTokenizer EmptyString DONE).

(** [tokenizer.next()]: the token, if there is one, and the tokenizer
    after it. *)
Definition next (t : URLTokenizer)
  : option (URLTokenType * string * URLTokenizer) :=
  match remaining t with
  | EmptyString => None
  | String _ _ =>
      match currentState t with
      | SCHEME_OR_HOST => Some (nextSchemeOrHost (remaining t))
      | HOST => Some (nextHost (remaining t))
      | PORT => Some (nextPort (remaining t))
      | PATH => Some (nextPath (remaining t))
      | QUERY => Some (nextQuery (remaining t))
      | DONE => None
      end
  end.

(** [text || undefined] *)
Definition orUndefined (text : string) : option string :=
  if JS.falsy text then None else Some text.

(** The [switch] of [URLBuilder.set] on one token. *)
Definition setToken (b : URLBuilder) (type : URLTokenType) (text : string)
  : URLBuilder :=
  match type with
  | TSCHEME => mkURLBuilder (orUndefined text) (getHost b) (getPort b)
                 (getPath b) (getQuery b)
  | THOST => mkURLBuilder (getScheme b) (orUndefined text) (getPort b)
               (getPath b) (getQuery b)
  | TPORT => mkURLBuilder (getScheme b) (getHost b) (orUndefined text)
               (getPath b) (getQuery b)
  | TPATH =>
      let tokenPath := orUndefined text in
      if JS.falsy_opt (getPath b)
         || match getPath b with Some p => String.eqb p "/" | None => false end
         || negb (match tokenPath with Some p => String.eqb p "/" | None => false end)
      then mkURLBuilder (getScheme b) (getHost b) (getPort b) tokenPath
             (getQuery b)
      else b
  | TQUERY => mkURLBuilder (getScheme b) (getHost b) (getPort b) (getPath b)
                (Some text)
  end.

(** The [while (tokenizer.next())] loop of [URLBuilder.set], at most
    [fuel] tokens. *)
Fixpoint setLoop (fuel : nat) (t : URLTokenizer) (b : URLBuilder)
  : URLBuilder * URLTokenizer :=
  match fuel with
  | O => (b, t)
  | S fuel' =>
      match next t with
      | None => (b, t)
      | Some (type, text, t') => setLoop fuel' t' (setToken b type text)
      end
  end.

(** The states only move forward; [rank] counts the tokens still
    possible. *)
Definition rank (s : URLTokenizerState) : nat :=
  match s with
  | SCHEME_OR_HOST => 5
  | HOST => 4
  | PORT => 3
  | PATH => 2
  | QUERY => 1
  | DONE => 0
  end.

(** [URLBuilder.parse(text)] *)
Definition parse (text : string) : URLBuilder :=
  fst (setLoop 5 (mkTokenizer text SCHEME_OR_HOST)
         (mkURLBuilder None None None None None)).

End CoreHttp.

(** *** [Buffer.from(s, "base64")] *)

Module Node.

(** The value of a character of the base64 alphabet, or of its URL-safe
    variant. *)
Definition unbase64 (a : ascii) : option nat :=
  let n := nat_of_ascii a in
  if ((65 <=? n) && (n <=? 90))%nat then Some (n - 65)
  else if ((97 <=? n) && (n <=? 122))%nat then Some (n - 71)
  else if ((48 <=? n) && (n <=? 57))%nat then Some (n + 4)
  else if ((n =? 43) || (n =? 45))%nat then Some 62
  else if ((n =? 47) || (n =? 95))%nat then Some 63
  else None.

(** The decoder skips a character outside the alphabet and stops at the
    padding. *)
Fixpoint sextets (s : string) : list nat :=
  match s with
  | EmptyString => []
  | String a s' =>
      if Ascii.eqb a "=" then []
      else match unbase64 a with
           | Some v => v :: sextets s'
           | None => sextets s'
           end
  end.

Definition byte_of_nat (n : nat) : byte := byte_of_ascii (ascii_of_nat n).

Fixpoint pack (l : list nat) : list byte :=
  match l with
  | a :: b :: c :: d :: rest =>
      byte_of_nat (a * 4 + b / 16)
      :: byte_of_nat ((b mod 16) * 16 + c / 4)
      :: byte_of_nat ((c mod 4) * 64 + d)
      :: pack rest
  | [a; b; c] =>
      [byte_of_nat (a * 4 + b / 16); byte_of_nat ((b mod 16) * 16 + c / 4)]
  | [a; b] => [byte_of_nat (a * 4 + b / 16)]
  | _ => []
  end.

Definition Buffer_from_base64 (s : string) : list byte := pack (sextets s).

End Node.

(** ** The deployed parser *)

(** Modelled from the spec: the fixed, well-known emulator connection
    string of step 1 of the parser, the constant
    [DevelopmentConnectionString] whose declaration is missing from the
    listing.  The value is the storage emulator's documented account. *)
Definition emulatorConnectionString : string :=
  "DefaultEndpointsProtocol=http;AccountName=devstoreaccount1;AccountKey=Eby8vdM02xNOcqFlqUwJPLlmEtlCDXJ1OUzFT50uSRZ6IFsuFq2UVErCz4I6tq/K1SZFPTOtr/KBHBeksoGMGw==;BlobEndpoint=http://127.0.0.1:10000/devstoreaccount1;".

(** [extractConnectionStringParts] with the library, the runtime and the
    emulator constant in place. *)
Definition parse : string -> result ConnectionString :=
  extractConnectionStringParts CoreHttp.parse Node.Buffer_from_base64
    emulatorConnectionString.

(** A stand-in for the storage SDK, to run [generateSasToken]: the
    permission string is kept as it is, the clock counts milliseconds in a
    zone without daylight saving, and the signer returns a fixed text. *)
Module FakeSdk.

Definition ContainerSASPermissions_parse (permissions : string) : result string :=
  Ok permissions.

Definition addHours (date : Z) (hours : Z) : Z := (date + hours * 3600000)%Z.

Definition generateBlobSASQueryParameters (containerName permissions : string)
  (expiresOn : Z) (sharedKeyCredential : string * string) : result string :=
  Ok "sig=fixed".

Definition Buffer_toString_base64 (key : list byte) : string :=
  string_of_list_byte key.

End FakeSdk.

(** [generateSasToken] on the deployed parser and the stand-in SDK. *)
Definition issue : Z -> string -> string -> string -> result SasToken :=
  generateSasToken CoreHttp.parse Node.Buffer_from_base64
    emulatorConnectionString FakeSdk.Buffer_toString_base64
    FakeSdk.ContainerSASPermissions_parse FakeSdk.addHours
    FakeSdk.generateBlobSASQueryParameters.

(** Connection strings used as inputs below. *)
Module Sample.

Definition accountKeyForm : string :=
  "DefaultEndpointsProtocol=https;AccountName=acct;AccountKey=YWJj;EndpointSuffix=core.windows.net".

Definition missingKey : string :=
  "DefaultEndpointsProtocol=https;AccountName=acct;EndpointSuffix=core.windows.net".

Definition protocolWithSas : string :=
  "DefaultEndpointsProtocol=https;BlobEndpoint=https://acct.blob.core.windows.net;SharedAccessSignature=sig".

Definition sasForm : string :=
  "BlobEndpoint=https://foo.blob.core.example.com;SharedAccessSignature=sig".

Definition sasPathStyle : string :=
  "BlobEndpoint=localhost:10001/devstoreaccount1/;SharedAccessSignature=sig".

Definition sasWithoutEndpoint : string :=
  "SharedAccessSignature=sv=2020-08-04&sig=abc".

Definition bothSecrets : string :=
  "DefaultEndpointsProtocol=https;AccountName=acct;AccountKey=YWJj;EndpointSuffix=core.windows.net;SharedAccessSignature=sig".

Definition doubleSlash : string :=
  "DefaultEndpointsProtocol=https;AccountName=acct;AccountKey=YWJj;BlobEndpoint=https://acct.blob.core.windows.net//".

Definition emulatorWithProxy : string :=
  "UseDevelopmentStorage=true;DevelopmentStorageProxyUri=http://x".

Definition emulatorTwoProxies : string :=
  "UseDevelopmentStorage=true;DevelopmentStorageProxyUri=http://a;DevelopmentStorageProxyUri=http://b".

Definition literalsInsideValues : string :=
  "BlobEndpoint=https://x.blob.core.windows.net/?DefaultEndpointsProtocol=https;MyAccountKey=YWJj;SharedAccessSignature=sig".

Definition upperCaseProtocol : string :=
  "DefaultEndpointsProtocol=HTTPS;AccountName=acct;AccountKey=YWJj;EndpointSuffix=core.windows.net".

Definition emulatorKey : list byte :=
  Node.Buffer_from_base64
    "Eby8vdM02xNOcqFlqUwJPLlmEtlCDXJ1OUzFT50uSRZ6IFsuFq2UVErCz4I6tq/K1SZFPTOtr/KBHBeksoGMGw==".

End Sample.

(** ** The request handler of credentials/index.js *)

(** The part of the function context the handler touches: the response
    body and whether [context.done()] was called. *)
Record Context : Type := mkContext {
  res_body : option SasToken;
  doneCalled : bool
}.

Section Handler.

Variable URLBuilder_parse : string -> URLBuilder.
Variable Buffer_from_base64 : string -> list byte.
Variable DevelopmentConnectionString : string.
Variable Buffer_toString_base64 : list byte -> string.
Variable ContainerSASPermissions : Type.
Variable ContainerSASPermissions_parse : string -> result ContainerSASPermissions.
Variable Date : Type.
Variable addHours : Date -> Z -> Date.
Variable generateBlobSASQueryParameters :
  string -> ContainerSASPermissions -> Date -> string * string -> result string.

(** [generateSasToken] on the value of an environment variable, which is
    [undefined] when the variable is not set: the first thing done with
    the connection string is the call of its [startsWith] method. *)
Definition generateSasTokenFromEnv (now : Date)
  (connectionString : option string) (container permissions : string)
  : result SasToken :=
  connectionString <- deref connectionString ;;
  generateSasToken URLBuilder_parse Buffer_from_base64
    DevelopmentConnectionString Buffer_toString_base64
    ContainerSASPermissions_parse addHours generateBlobSASQueryParameters
    now connectionString container permissions.

(** The exported function: the context after the call and the exception
    it ended with, if any.  The body is computed before [context.res] is
    assigned, so an exception leaves the context as it was. *)
Definition handler (context : Context) (AzureWebJobsStorage : option string)
  (now : Date) : Context * option exn :=
  let permissions := "c" in
  let container := "images" in
  match generateSasTokenFromEnv now AzureWebJobsStorage container permissions with
  | Ok body => (mkContext (Some body) true, None)
  | Throw e => (context, Some e)
  end.

End Handler.

(** ** The upload front end *)

Module FrontEnd.

Fixpoint take (n : nat) (s : string) : string :=
  match n, s with
  | O, _ => EmptyString
  | S n', String a s' => String a (take n' s')
  | S _, EmptyString => EmptyString
  end.

(** [s.lastIndexOf(c)] for a one-character [c]: the last position, or -1. *)
Fixpoint lastPosition (s : string) (c : ascii) : option nat :=
  match s with
  | EmptyString => None
  | String a s' =>
      match lastPosition s' c with
      | Some i => Some (S i)
      | None => if Ascii.eqb a c then Some 0 else None
      end
  end.

Definition lastIndexOf (s : string) (c : ascii) : Z :=
  match lastPosition s c with
  | Some i => Z.of_nat i
  | None => (-1)%Z
  end.

(** [s.substring(indexStart, indexEnd)]: each index is clamped to the
    string, and the two are swapped when the first is the larger. *)
Definition substring (s : string) (indexStart indexEnd : Z) : string :=
  let len := Z.of_nat (String.length s) in
  let clamp := fun i : Z => Z.max 0 (Z.min i len) in
  let a := clamp indexStart in
  let b := clamp indexEnd in
  let first := Z.min a b in
  let last := Z.max a b in
  JS.drop (Z.to_nat first) (take (Z.to_nat last) s).

(** [s.substring(indexStart)] *)
Definition substringFrom (s : string) (indexStart : Z) : string :=
  substring s indexStart (Z.of_nat (String.length s)).

(** [buildBlobName(file)] on the file's name; [random] is the text of
    [Math.random().toString(16)]. *)
Definition buildBlobName (random name : string) : string :=
  let filename := substring name 0 (lastIndexOf name ".") in
  let ext := substringFrom name (lastIndexOf name ".") in
  (filename ++ "_" ++ JS.drop 2 random ++ ext)%string.

(** The address [blobUpload] hands to the blob client. *)
Definition blobUpload (random name url container sasKey : string) : string :=
  let blobName := buildBlobName random name in
  let login := (url ++ "/" ++ container ++ "/" ++ blobName ++ "?" ++ sasKey)%string in
  login.

End FrontEnd.

(** The exported handler on the deployed parser and the stand-in SDK. *)
Definition serve : Context -> option string -> Z -> Context * option exn :=
  handler CoreHttp.parse Node.Buffer_from_base64
    emulatorConnectionString FakeSdk.Buffer_toString_base64
    FakeSdk.ContainerSASPermissions_parse FakeSdk.addHours
    FakeSdk.generateBlobSASQueryParameters.

(** ** Vocabulary of the properties *)

(** The messages of the exceptions the parser throws. *)
Definition msgUnable : string :=
  "Unable to extract accountName with provided information.".
Definition msgBlobEndpoint : string :=
  "Invalid BlobEndpoint in the provided SAS Connection String".
Definition msgSas : string :=
  "Invalid SharedAccessSignature in the provided SAS Connection String".
Definition msgAccountKey : string :=
  "Invalid AccountKey in the provided Connection String".

(** The effective connection string: the emulator's for the shorthand. *)
Definition effective (DevelopmentConnectionString connectionString : string)
  : string :=
  if JS.startsWith connectionString "UseDevelopmentStorage=true"
  then DevelopmentConnectionString
  else connectionString.

(** The first path segment: the text between the leading separator of a
    path and the next one. *)
Definition firstPathSegment (path : string) : option string :=
  match path with
  | String c rest =>
      if Ascii.eqb c "/" then hd_error (JS.split "/" rest) else None
  | EmptyString => None
  end.

(** [t] occurs somewhere in [s]. *)
Definition contains (s t : string) : Prop :=
  exists pre post, s = (pre ++ t ++ post)%string.

Definition msgProtocol : string :=
  "Invalid DefaultEndpointsProtocol in the provided Connection String. Expecting 'https' or 'http'".
Definition msgSuffix : string :=
  "Invalid EndpointSuffix in the provided Connection String".
Definition msgAccountName : string :=
  "Invalid AccountName in the provided Connection String".

(** The builder's path, once set, starts with a separator, and the
    tokenizer enters the path state only in front of one. *)
Definition absolutePath (b : URLBuilder) : Prop :=
  forall p, getPath b = Some p -> exists r, p = String "/" r.

Definition pathStateAtSlash (t : CoreHttp.URLTokenizer) : Prop :=
  CoreHttp.currentState t = CoreHttp.PATH ->
  exists r, CoreHttp.remaining t = String "/" r.

(** [segments.join(";")] and the like: how a connection string is put
    together from its segments. *)
Fixpoint join (sep : ascii) (segments : list string) : string :=
  match segments with
  | [] => EmptyString
  | [x] => x
  | x :: rest => (x ++ String sep (join sep rest))%string
  end.

(** The syntax characters of regular expressions. *)
Definition isSyntaxCharacter (a : ascii) : bool :=
  existsb (Ascii.eqb a)
    ["^"; "$"; "\"; "."; "*"; "+"; "?"; "("; ")"; "["; "]"; "{"; "}"; "|"]%char.

(** A text without syntax characters: as a pattern it matches itself and
    nothing else. *)
Fixpoint plainPattern (s : string) : bool :=
  match s with
  | EmptyString => true
  | String a s' => negb (isSyntaxCharacter a) && plainPattern s'
  end.

(** [c] occurs in [s]. *)
Fixpoint hasChar (c : ascii) (s : string) : bool :=
  match s with
  | EmptyString => false
  | String a s' => Ascii.eqb a c || hasChar c s'
  end.

(** [s] has no line terminator, so a dot-star group captures all of it. *)
Fixpoint singleLine (s : string) : bool :=
  match s with
  | EmptyString => true
  | String a s' => negb (JS.isLineTerminator a) && singleLine s'
  end.

(** * Properties *)

Local Open Scope string_scope.

(** ** Sanity checks of the string methods and of the library models *)

Example split_trailing : JS.split ";" "a;b;" = ["a"; "b"; ""].
Proof. reflexivity. Qed.

Example split_empty : JS.split ";" "" = [""].
Proof. reflexivity. Qed.

Example trim_both : JS.trim "  a b  " = "a b".
Proof. reflexivity. Qed.

Example match_leftmost :
  JS.match_group1 "AccountKey=ab==" "AccountKey=" = Some "ab==".
Proof. reflexivity. Qed.

Example lower_https : JS.toLowerCase "HtTpS" = "https".
Proof. reflexivity. Qed.

Example slice_one : JS.slice_0_m1 "http://x//" = "http://x/".
Proof. reflexivity. Qed.

Example parse_blob_host :
  CoreHttp.parse "https://foo.blob.core.example.com" =
  mkURLBuilder (Some "https") (Some "foo.blob.core.example.com") None None None.
Proof. reflexivity. Qed.

Example parse_path_style :
  CoreHttp.parse "http://localhost:10001/devstoreaccount1/" =
  mkURLBuilder (Some "http") (Some "localhost") (Some "10001")
    (Some "/devstoreaccount1/") None.
Proof. reflexivity. Qed.

Example parse_no_scheme :
  CoreHttp.parse "localhost:10001/devstoreaccount1/" =
  mkURLBuilder None (Some "localhost") (Some "10001")
    (Some "/devstoreaccount1/") None.
Proof. reflexivity. Qed.

Example parse_empty :
  CoreHttp.parse "" = mkURLBuilder None None None None None.
Proof. reflexivity. Qed.

Example base64_abc :
  Node.Buffer_from_base64 "YWJj" = ["a"; "b"; "c"]%byte.
Proof. reflexivity. Qed.

Example base64_padded :
  Node.Buffer_from_base64 "YWI=" = ["a"; "b"]%byte.
Proof. reflexivity. Qed.

(** ** Facts about the string methods *)

Lemma falsy_true (s : string) : JS.falsy s = true <-> s = "".
Proof. destruct s; simpl; split; intro H; congruence. Qed.

Lemma falsy_false (s : string) : JS.falsy s = false <-> s <> "".
Proof. destruct s; simpl; split; intro H; congruence. Qed.

Lemma startsWith_app (t post : string) : JS.startsWith (t ++ post) t = true.
Proof.
  induction t as [|b t IH]; simpl.
  - reflexivity.
  - now rewrite Ascii.eqb_refl, IH.
Qed.

Lemma startsWith_inv (s t : string) :
  JS.startsWith s t = true -> exists post, s = t ++ post.
Proof.
  revert s; induction t as [|b t IH]; intros s H.
  - now exists s.
  - destruct s as [|a s]; simpl in H; [discriminate|].
    apply andb_true_iff in H as [Hab Hs].
    apply Ascii.eqb_eq in Hab; subst b.
    destruct (IH _ Hs) as [post ->].
    now exists post.
Qed.

Lemma startsWith_indexOf (s t : string) :
  JS.startsWith s t = true -> JS.indexOf s t = Some 0.
Proof. intro H; destruct s; simpl in *; now rewrite H. Qed.

Lemma indexOf_unfold (s t : string) :
  JS.indexOf s t =
  if JS.startsWith s t then Some 0
  else match s with
       | EmptyString => None
       | String _ s' => option_map S (JS.indexOf s' t)
       end.
Proof. destruct s; reflexivity. Qed.

(** [indexOf] finds an occurrence exactly when there is one. *)
Lemma indexOf_some (s t : string) (i : nat) :
  JS.indexOf s t = Some i ->
  exists pre post, s = pre ++ t ++ post /\ String.length pre = i.
Proof.
  revert i; induction s as [|a s IH]; intros i H; rewrite indexOf_unfold in H.
  - destruct (JS.startsWith "" t) eqn:E; [|discriminate].
    injection H as <-.
    destruct (startsWith_inv _ _ E) as [post Hp].
    now exists "", post.
  - destruct (JS.startsWith (String a s) t) eqn:E.
    + injection H as <-.
      destruct (startsWith_inv _ _ E) as [post Hp].
      now exists "", post.
    + destruct (JS.indexOf s t) as [j|] eqn:Ej; simpl in H; [|discriminate].
      injection H as <-.
      destruct (IH j eq_refl) as (pre & post & -> & Hl).
      exists (String a pre), post; simpl; split; congruence.
Qed.

Lemma occurs_indexOf (pre t post : string) :
  JS.indexOf (pre ++ t ++ post) t <> None.
Proof.
  induction pre as [|a pre IH]; simpl String.append.
  - rewrite startsWith_indexOf by apply startsWith_app. discriminate.
  - rewrite indexOf_unfold.
    destruct (JS.startsWith _ t); [discriminate|].
    destruct (JS.indexOf (pre ++ t ++ post) t); simpl; congruence.
Qed.

(** The search the branch test makes: it succeeds exactly when the literal
    occurs somewhere in the text. *)
Lemma search_found (s t : string) :
  JS.search s t <> (-1)%Z <-> exists pre post, s = pre ++ t ++ post.
Proof.
  unfold JS.search; split.
  - destruct (JS.indexOf s t) as [i|] eqn:E; [intros _|congruence].
    destruct (indexOf_some _ _ E) as (pre & post & H & _); eauto.
  - intros (pre & post & ->).
    destruct (JS.indexOf (pre ++ t ++ post) t) eqn:E.
    + lia.
    + now apply occurs_indexOf in E.
Qed.

Lemma search_test (s t : string) :
  negb (Z.eqb (JS.search s t) (-1)) = true <->
  exists pre post, s = pre ++ t ++ post.
Proof.
  rewrite <- search_found, negb_true_iff, Z.eqb_neq. tauto.
Qed.

Lemma endsWith_unfold (s t : string) :
  JS.endsWith s t =
  (String.eqb s t ||
   match s with
   | EmptyString => false
   | String _ s' => JS.endsWith s' t
   end).
Proof. destruct s; reflexivity. Qed.

(** [endsWith] is the suffix test. *)
Lemma endsWith_iff (s t : string) :
  JS.endsWith s t = true <-> exists pre, s = pre ++ t.
Proof.
  induction s as [|a s IH]; rewrite endsWith_unfold, orb_true_iff.
  - split.
    + intros [H|H]; [|discriminate]. apply String.eqb_eq in H. now exists "".
    + intros [pre H]. left. apply String.eqb_eq.
      destruct pre; simpl in H; [assumption|discriminate].
  - rewrite IH. split.
    + intros [H|[pre ->]].
      * apply String.eqb_eq in H. now exists "".
      * now exists (String a pre).
    + intros [pre H]. destruct pre as [|b pre]; simpl in H.
      * left. now apply String.eqb_eq.
      * right. injection H as _ ->. now exists pre.
Qed.

Lemma append_empty_r (s : string) : s ++ "" = s.
Proof. induction s; simpl; congruence. Qed.

Lemma append_assoc (a b c : string) : (a ++ b) ++ c = a ++ b ++ c.
Proof. induction a; simpl; congruence. Qed.

Lemma slice_snoc (s : string) (a : ascii) :
  JS.slice_0_m1 (s ++ String a "") = s.
Proof.
  induction s as [|b s IH]; simpl.
  - reflexivity.
  - rewrite IH. destruct s; reflexivity.
Qed.

(** Slicing one separator off leaves one exactly when there were two. *)
Lemma stripSlash_endsWith (v : string) :
  JS.endsWith (stripSlash v) "/" = true -> JS.endsWith v "//" = true.
Proof.
  unfold stripSlash. destruct (JS.endsWith v "/") eqn:E; [|congruence].
  apply endsWith_iff in E as [pre ->]. rewrite slice_snoc.
  intro H. apply endsWith_iff in H as [pre' ->].
  apply endsWith_iff. exists pre'. now rewrite append_assoc.
Qed.

(** The last character of a concatenation is that of its last part. *)
Lemma endsWith_append (a b : string) (c : ascii) :
  b <> "" -> JS.endsWith (a ++ b) (String c "") = JS.endsWith b (String c "").
Proof.
  intro Hb. induction a as [|x a IH]; simpl String.append; [reflexivity|].
  rewrite endsWith_unfold, IH.
  replace (String.eqb (String x (a ++ b)) (String c "")) with false;
    [reflexivity|].
  symmetry. apply String.eqb_neq. intro H. injection H as _ H.
  destruct a; simpl in H; [contradiction|discriminate].
Qed.

(** ** Facts about the parser's parts *)

Arguments JS.startsWith : simpl never.
Arguments JS.trim : simpl never.
Arguments JS.match_group1 : simpl never.

Lemma bind_ok {A B : Type} (r : result A) (k : A -> result B) (b : B) :
  bind r k = Ok b -> exists a, r = Ok a /\ k a = Ok b.
Proof. destruct r; simpl; intro H; [eauto|discriminate]. Qed.

Lemma bind_throw {A B : Type} (r : result A) (k : A -> result B) (e : exn) :
  bind r k = Throw e -> r = Throw e \/ exists a, r = Ok a /\ k a = Throw e.
Proof. destruct r; simpl; intro H; [eauto|left; congruence]. Qed.

(** The only exception of [getValueInConnString] is the [TypeError] of
    indexing [null], raised when the first element that starts with the
    key does not contain the key followed by the equals sign. *)
Lemma getValue_loop_throw (elements : list string) (argument : string) (e : exn) :
  getValue_loop elements argument = Throw e -> e = TypeError.
Proof.
  induction elements as [|element rest IH]; simpl; [discriminate|].
  destruct (JS.startsWith (JS.trim element) argument); [|exact IH].
  destruct (JS.match_group1 _ _); simpl; congruence.
Qed.

Lemma getValue_throw (cs argument : string) (e : exn) :
  getValueInConnString cs argument = Throw e -> e = TypeError.
Proof. apply getValue_loop_throw. Qed.

(** First match wins in [getValueInConnString]: the elements after the
    first one that starts with the key are never looked at. *)
Lemma getValue_loop_first (before after : list string) (element argument : string) :
  Forall (fun x => JS.startsWith (JS.trim x) argument = false) before ->
  JS.startsWith (JS.trim element) argument = true ->
  getValue_loop (before ++ element :: after) argument =
  deref (JS.match_group1 (JS.trim element) (argument ++ "=")).
Proof.
  intros Hb He. induction Hb as [|x before Hx _ IH]; simpl.
  - now rewrite He.
  - now rewrite Hx.
Qed.

Lemma getValue_loop_absent (elements : list string) (argument : string) :
  Forall (fun x => JS.startsWith (JS.trim x) argument = false) elements ->
  getValue_loop elements argument = Ok "".
Proof.
  induction 1 as [|x l Hx _ IH]; simpl; [reflexivity|now rewrite Hx].
Qed.

Section ParserFacts.

Variable URLBuilder_parse : string -> URLBuilder.
Variable Buffer_from_base64 : string -> list byte.

Local Abbreviation accountNameFromUrl := (getAccountNameFromUrl URLBuilder_parse).

Lemma accountNameFromUrl_throw (u : string) (e : exn) :
  accountNameFromUrl u = Throw e -> e = Error msgUnable.
Proof.
  unfold getAccountNameFromUrl, msgUnable.
  match goal with |- match ?a with _ => _ end = _ -> _ => destruct a end;
    congruence.
Qed.

Lemma accountNameFromUrl_ok (u name : string) :
  accountNameFromUrl u = Ok name ->
  name <> "" /\
  exists host, getHost (URLBuilder_parse u) = Some host /\
    ((nth_error (JS.split "." host) 1 = Some "blob" /\
      nth_error (JS.split "." host) 0 = Some name) \/
     (nth_error (JS.split "." host) 1 <> Some "blob" /\
      exists path, getPath (URLBuilder_parse u) = Some path /\
        nth_error (JS.split "/" path) 1 = Some name)).
Proof.
  unfold getAccountNameFromUrl.
  destruct (getHost (URLBuilder_parse u)) as [host|]; cbn [bind deref];
    [|discriminate].
  assert (Hfin : forall o : option string,
    match
      match o with
      | Some n0 =>
          if JS.falsy n0 then Throw (Error "Provided accountName is invalid.")
          else Ok n0
      | None => Throw (Error "Provided accountName is invalid.")
      end
    with
    | Ok a => Ok a
    | Throw _ => Throw (Error "Unable to extract accountName with provided information.")
    end = Ok name -> o = Some name /\ name <> "").
  { intros [n0|]; [|discriminate].
    destruct (JS.falsy n0) eqn:F; [discriminate|].
    intro H; injection H as <-. apply falsy_false in F. auto. }
  destruct (nth_error (JS.split "." host) 1) as [label|] eqn:E1.
  - destruct (String.eqb label "blob") eqn:Eb; cbn [bind deref].
    + apply String.eqb_eq in Eb; subst label.
      intro H; apply Hfin in H as [E0 Hn].
      split; [assumption|]. exists host; split; [reflexivity|]. now left.
    + apply String.eqb_neq in Eb.
      destruct (getPath (URLBuilder_parse u)) as [path|]; cbn [bind deref];
        [|discriminate].
      intro H; apply Hfin in H as [E0 Hn].
      split; [assumption|]. exists host; split; [reflexivity|]. right.
      split; [congruence|]. now exists path.
  - cbn [bind deref].
    destruct (getPath (URLBuilder_parse u)) as [path|]; cbn [bind deref];
      [|discriminate].
    intro H; apply Hfin in H as [E0 Hn].
    split; [assumption|]. exists host; split; [reflexivity|]. right.
    split; [congruence|]. now exists path.
Qed.

(** Without a host the account name cannot be derived. *)
Lemma accountNameFromUrl_no_host (u : string) :
  getHost (URLBuilder_parse u) = None ->
  accountNameFromUrl u = Throw (Error msgUnable).
Proof. unfold getAccountNameFromUrl, msgUnable. now intros ->. Qed.

(** What a successful SAS branch returns. *)
Lemma sasPath_ok (cs blobEndpoint : string) (c : ConnectionString) :
  sasPath URLBuilder_parse cs blobEndpoint = Ok c ->
  exists name sas,
    c = SASConnString blobEndpoint name sas /\
    getValueInConnString cs "SharedAccessSignature" = Ok sas /\
    accountNameFromUrl blobEndpoint = Ok name /\
    blobEndpoint <> "" /\ sas <> "" /\ name <> "".
Proof.
  unfold sasPath. intro H.
  apply bind_ok in H as (sas & Es & H).
  apply bind_ok in H as (name & En & H).
  destruct (JS.falsy blobEndpoint) eqn:Fb; [discriminate|].
  destruct (JS.falsy sas) eqn:Fs; [discriminate|].
  destruct (JS.falsy name) eqn:Fn; [discriminate|].
  injection H as <-. exists name, sas.
  rewrite falsy_false in Fb, Fs, Fn. auto 10.
Qed.

(** The exceptions of the SAS branch. *)
Lemma sasPath_throw (cs blobEndpoint : string) (e : exn) :
  sasPath URLBuilder_parse cs blobEndpoint = Throw e ->
  e = TypeError \/ e = Error msgUnable \/ e = Error msgBlobEndpoint \/
  e = Error msgSas.
Proof.
  unfold sasPath, msgBlobEndpoint, msgSas. intro H.
  apply bind_throw in H as [H|(sas & _ & H)].
  { left. eapply getValue_throw; eassumption. }
  apply bind_throw in H as [H|(name & En & H)].
  { right; left. eapply accountNameFromUrl_throw; eassumption. }
  destruct (JS.falsy blobEndpoint); [injection H as <-; auto|].
  destruct (JS.falsy sas); [injection H as <-; auto|].
  destruct (JS.falsy name) eqn:Fn; [|discriminate].
  apply accountNameFromUrl_ok in En as [Hn _].
  apply falsy_true in Fn. contradiction.
Qed.

(** What a successful Account-Key branch returns. *)
Lemma accountPath_ok (cs blobEndpoint proxyUri : string) (c : ConnectionString) :
  accountPath Buffer_from_base64 cs blobEndpoint proxyUri = Ok c ->
  exists u name keyText,
    c = AccountConnString u name (Buffer_from_base64 keyText) proxyUri /\
    getValueInConnString cs "AccountName" = Ok name /\
    getValueInConnString cs "AccountKey" = Ok keyText /\
    name <> "" /\ Buffer_from_base64 keyText <> [] /\
    (blobEndpoint <> "" -> u = blobEndpoint) /\
    (blobEndpoint = "" ->
     exists protocol suffix,
       getValueInConnString cs "DefaultEndpointsProtocol" = Ok protocol /\
       getValueInConnString cs "EndpointSuffix" = Ok suffix /\
       (JS.toLowerCase protocol = "https" \/ JS.toLowerCase protocol = "http") /\
       suffix <> "" /\
       u = protocol ++ "://" ++ name ++ ".blob." ++ suffix).
Proof.
  unfold accountPath. intro H.
  apply bind_ok in H as (name & En & H).
  apply bind_ok in H as (keyText & Ek & H).
  apply bind_ok in H as (u & Eu & H).
  destruct (JS.falsy name) eqn:Fn; [discriminate|].
  destruct (Nat.eqb (List.length (Buffer_from_base64 keyText)) 0) eqn:Fk;
    [discriminate|].
  injection H as <-. exists u, name, keyText.
  apply falsy_false in Fn. apply Nat.eqb_neq in Fk.
  repeat split; try assumption.
  - intro Hk. rewrite Hk in Fk. now apply Fk.
  - intro Hb. apply falsy_false in Hb. rewrite Hb in Eu. congruence.
  - intros ->. simpl in Eu.
    apply bind_ok in Eu as (protocol & Ep & Eu).
    destruct (String.eqb (JS.toLowerCase protocol) "https") eqn:Hs;
      destruct (String.eqb (JS.toLowerCase protocol) "http") eqn:Hh;
      simpl in Eu; try discriminate;
      apply bind_ok in Eu as (suffix & Esuf & Eu);
      (destruct (JS.falsy suffix) eqn:Fs; [discriminate|]);
      injection Eu as <-; apply falsy_false in Fs;
      exists protocol, suffix; repeat split; try assumption;
      try reflexivity.
    + left. now apply String.eqb_eq.
    + left. now apply String.eqb_eq.
    + right. now apply String.eqb_eq.
Qed.

(** The proxy URI is carried through unchanged. *)
Lemma accountPath_proxy (cs blobEndpoint p q u name : string) (key : list byte) (p0 : string) :
  accountPath Buffer_from_base64 cs blobEndpoint p =
    Ok (AccountConnString u name key p0) ->
  p0 = p /\
  accountPath Buffer_from_base64 cs blobEndpoint q =
    Ok (AccountConnString u name key q).
Proof.
  unfold accountPath. intro H.
  apply bind_ok in H as (name' & En & H). rewrite En; cbn [bind].
  apply bind_ok in H as (keyText & Ek & H). rewrite Ek; cbn [bind].
  apply bind_ok in H as (u' & Eu & H). rewrite Eu; cbn [bind].
  destruct (JS.falsy name'); [discriminate|].
  destruct (Nat.eqb _ 0); [discriminate|].
  injection H as <- <- <- <-. auto.
Qed.

End ParserFacts.

(** ** The claims about the parser *)

Lemma isAccountShaped_true (cs : string) :
  isAccountShaped cs = true <->
  contains cs "DefaultEndpointsProtocol=" /\ contains cs "AccountKey=".
Proof.
  unfold isAccountShaped, contains.
  now rewrite andb_true_iff, !search_test.
Qed.

Lemma isAccountShaped_false (cs : string) :
  ~ contains cs "AccountKey=" -> isAccountShaped cs = false.
Proof.
  intro H. destruct (isAccountShaped cs) eqn:E; [|reflexivity].
  apply isAccountShaped_true in E as [_ E]. contradiction.
Qed.

Lemma nth_error_0_hd {A : Type} (l : list A) : nth_error l 0 = hd_error l.
Proof. now destruct l. Qed.

Lemma firstPathSegment_index (path seg : string) :
  firstPathSegment path = Some seg ->
  nth_error (JS.split "/" path) 1 = Some seg.
Proof.
  destruct path as [|c rest]; cbn [firstPathSegment JS.split];
    [discriminate|].
  destruct (Ascii.eqb c "/"); [|discriminate].
  intro H. change (nth_error (JS.split "/" rest) 0 = Some seg).
  now rewrite nth_error_0_hd.
Qed.

(** The loop of [getProxyUriFromDevConnString] never throws: an element
    that starts with the key and the equals sign matches the pattern. *)
Lemma proxyUri_loop_ok (elements : list string) (p : string) :
  exists v, proxyUri_loop elements p = Ok v.
Proof.
  revert p; induction elements as [|element rest IH]; intro p; simpl.
  - now exists p.
  - destruct (JS.startsWith (JS.trim element) "DevelopmentStorageProxyUri=") eqn:E.
    + unfold JS.match_group1. rewrite (startsWith_indexOf _ _ E).
      cbn [deref bind]. apply IH.
    + apply IH.
Qed.

Lemma getProxyUri_ok (cs : string) :
  exists v, getProxyUriFromDevConnString cs = Ok v.
Proof.
  unfold getProxyUriFromDevConnString.
  destruct (negb _); [apply proxyUri_loop_ok|now exists ""].
Qed.

(** Last match wins in [getProxyUriFromDevConnString]: the value is that
    of the last element that starts with the key. *)
Lemma proxyUri_loop_last (before after : list string) (element p : string) :
  JS.startsWith (JS.trim element) "DevelopmentStorageProxyUri=" = true ->
  Forall (fun x =>
    JS.startsWith (JS.trim x) "DevelopmentStorageProxyUri=" = false) after ->
  proxyUri_loop (before ++ element :: after) p =
  deref (JS.match_group1 (JS.trim element) "DevelopmentStorageProxyUri=").
Proof.
  intros He Ha. revert p.
  assert (Hafter : forall q, proxyUri_loop after q = Ok q).
  { induction Ha as [|x l Hx _ IH]; intro q; simpl; [reflexivity|].
    now rewrite Hx. }
  induction before as [|b before IH]; intro p; simpl.
  - rewrite He. unfold JS.match_group1.
    rewrite (startsWith_indexOf _ _ He). cbn [deref bind]. apply Hafter.
  - destruct (JS.startsWith (JS.trim b) "DevelopmentStorageProxyUri=") eqn:Eb.
    + unfold JS.match_group1 at 1. rewrite (startsWith_indexOf _ _ Eb).
      cbn [deref bind]. apply IH.
    + apply IH.
Qed.

Section ParserClaims.

Variable URLBuilder_parse : string -> URLBuilder.
Variable Buffer_from_base64 : string -> list byte.
Variable DevelopmentConnectionString : string.

Local Abbreviation extract :=
  (extractConnectionStringParts URLBuilder_parse Buffer_from_base64
     DevelopmentConnectionString).
Local Abbreviation extractAt := (extractFrom URLBuilder_parse Buffer_from_base64).
Local Abbreviation eff := (effective DevelopmentConnectionString).

(** The exceptions of the Account-Key branch. *)
Lemma accountPath_throw (cs blobEndpoint proxyUri : string) (e : exn) :
  accountPath Buffer_from_base64 cs blobEndpoint proxyUri = Throw e ->
  e = TypeError \/ e = Error msgProtocol \/ e = Error msgSuffix \/
  e = Error msgAccountName \/ e = Error msgAccountKey.
Proof.
  unfold accountPath, msgProtocol, msgSuffix, msgAccountName, msgAccountKey.
  intro H.
  apply bind_throw in H as [H|(name & _ & H)].
  { left. eapply getValue_throw; eassumption. }
  apply bind_throw in H as [H|(keyText & _ & H)].
  { left. eapply getValue_throw; eassumption. }
  apply bind_throw in H as [H|(u & _ & H)].
  - destruct (JS.falsy blobEndpoint); [|discriminate].
    apply bind_throw in H as [H|(protocol & _ & H)].
    { left. eapply getValue_throw; eassumption. }
    destruct (negb _ && negb _); [injection H as <-; auto|].
    apply bind_throw in H as [H|(suffix & _ & H)].
    { left. eapply getValue_throw; eassumption. }
    destruct (JS.falsy suffix); [injection H as <-; auto|discriminate].
  - destruct (JS.falsy name); [injection H as <-; auto 6|].
    destruct (Nat.eqb _ 0); [injection H as <-; auto 6|discriminate].
Qed.

Lemma extractFrom_account (cs p : string) :
  isAccountShaped cs = true ->
  extractAt cs p =
  (blobEndpoint <- getValueInConnString cs "BlobEndpoint" ;;
   accountPath Buffer_from_base64 cs (stripSlash blobEndpoint) p).
Proof. unfold extractFrom. now intros ->. Qed.

Lemma extractFrom_sas (cs p : string) :
  isAccountShaped cs = false ->
  extractAt cs p =
  (blobEndpoint <- getValueInConnString cs "BlobEndpoint" ;;
   sasPath URLBuilder_parse cs (stripSlash blobEndpoint)).
Proof. unfold extractFrom. now intros ->. Qed.

Lemma extract_plain (cs : string) :
  JS.startsWith cs "UseDevelopmentStorage=true" = false ->
  extract cs = extractAt cs "".
Proof. unfold extractConnectionStringParts. now intros ->. Qed.

Lemma extract_effective (cs : string) :
  extract cs =
  (proxyUri <- (if JS.startsWith cs "UseDevelopmentStorage=true"
                then getProxyUriFromDevConnString cs else Ok "") ;;
   extractAt (eff cs) proxyUri).
Proof.
  unfold extractConnectionStringParts, effective.
  now destruct (JS.startsWith cs "UseDevelopmentStorage=true").
Qed.

(** A successful parse went through [extractFrom] on the effective
    connection string. *)
Lemma extract_ok (cs : string) (c : ConnectionString) :
  extract cs = Ok c -> exists p, extractAt (eff cs) p = Ok c.
Proof.
  rewrite extract_effective. intro H.
  apply bind_ok in H as (p & _ & H). eauto.
Qed.

Lemma extract_throw (cs : string) (e : exn) :
  extract cs = Throw e -> exists p, extractAt (eff cs) p = Throw e.
Proof.
  rewrite extract_effective. intro H.
  apply bind_throw in H as [H|(p & _ & H)]; [|eauto].
  destruct (JS.startsWith cs "UseDevelopmentStorage=true"); [|discriminate].
  destruct (getProxyUri_ok cs) as [v Hv]. congruence.
Qed.

(** The proxy URI does not influence the rest of the result. *)
Lemma extractFrom_proxy (cs p q u name : string) (key : list byte) (p0 : string) :
  extractAt cs p = Ok (AccountConnString u name key p0) ->
  extractAt cs q = Ok (AccountConnString u name key q).
Proof.
  unfold extractFrom. intro H.
  apply bind_ok in H as (b & Eb & H). rewrite Eb; cbn [bind].
  destruct (isAccountShaped cs).
  - now apply accountPath_proxy with (q := q) in H.
  - apply sasPath_ok in H as (n & s & H & _). discriminate.
Qed.

(** C1, as the code has it: a connection string that contains
    [DefaultEndpointsProtocol=] but no [AccountKey=] (and is not the
    emulator shorthand) is parsed by the SAS branch.  The result is a SAS
    credential or one of that branch's exceptions; it is never the
    Account-Key variant and never the invalid-account-key error. *)
Theorem missing_key_takes_sas_branch (cs : string) :
  contains cs "DefaultEndpointsProtocol=" ->
  ~ contains cs "AccountKey=" ->
  JS.startsWith cs "UseDevelopmentStorage=true" = false ->
  extract cs =
    (blobEndpoint <- getValueInConnString cs "BlobEndpoint" ;;
     sasPath URLBuilder_parse cs (stripSlash blobEndpoint)) /\
  ~ failsWith (extract cs) InvalidAccountKey /\
  (forall c, extract cs = Ok c -> isAccountConnString c = false).
Proof.
  intros _ Hk He.
  assert (Eq : extract cs =
    (blobEndpoint <- getValueInConnString cs "BlobEndpoint" ;;
     sasPath URLBuilder_parse cs (stripSlash blobEndpoint))).
  { rewrite extract_plain by assumption.
    apply extractFrom_sas. now apply isAccountShaped_false. }
  split; [exact Eq|]. rewrite Eq. split.
  - intros (e & H & Hc).
    apply bind_throw in H as [H|(b & _ & H)].
    + apply getValue_throw in H. subst e. discriminate.
    + apply sasPath_throw in H as [-> | [-> | [-> | ->]]]; discriminate.
  - intros c H. apply bind_ok in H as (b & _ & H).
    apply sasPath_ok in H as (n & s & -> & _). reflexivity.
Qed.

Lemma synthesized_endsWith (protocol name suffix : string) :
  suffix <> "" ->
  JS.endsWith (protocol ++ "://" ++ name ++ ".blob." ++ suffix) "/" =
  JS.endsWith suffix "/".
Proof.
  intro Hs.
  rewrite (endsWith_append protocol), (endsWith_append "://"),
    (endsWith_append name), (endsWith_append ".blob."); try assumption;
    try (simpl; discriminate); try reflexivity.
  destruct name; simpl; discriminate.
Qed.

(** X28: what every parsed credential satisfies.  The account name is
    not empty and neither is the account key (Account-Key variant) or the
    shared access signature (SAS variant).  The base URL is the
    [BlobEndpoint] value less one trailing separator when that is not
    empty, and otherwise the endpoint synthesized from the protocol, the
    account name and the suffix; so it does not end with a separator when
    the [BlobEndpoint] value does not end with two of them and, where the
    endpoint is synthesized, the [EndpointSuffix] value does not end with
    one. *)
Theorem parse_invariants (cs : string) (c : ConnectionString) :
  extract cs = Ok c ->
  accountName_of c <> "" /\
  (forall key, accountKey_of c = Some key -> key <> []) /\
  (forall sas, accountSas_of c = Some sas -> sas <> "") /\
  (exists blob,
     getValueInConnString (eff cs) "BlobEndpoint" = Ok blob /\
     (stripSlash blob <> "" -> url_of c = stripSlash blob) /\
     (stripSlash blob = "" ->
      exists protocol suffix,
        getValueInConnString (eff cs) "DefaultEndpointsProtocol" = Ok protocol /\
        getValueInConnString (eff cs) "EndpointSuffix" = Ok suffix /\
        url_of c = protocol ++ "://" ++ accountName_of c ++ ".blob." ++ suffix)) /\
  (forall v,
     getValueInConnString (eff cs) "BlobEndpoint" = Ok v ->
     JS.endsWith v "//" = false ->
     (stripSlash v = "" ->
      forall suffix,
        getValueInConnString (eff cs) "EndpointSuffix" = Ok suffix ->
        JS.endsWith suffix "/" = false) ->
     JS.endsWith (url_of c) "/" = false).
Proof.
  intro H. apply extract_ok in H as (p & H).
  unfold extractFrom in H. apply bind_ok in H as (b & Eb & H).
  assert (Hstrip : forall v, getValueInConnString (eff cs) "BlobEndpoint" = Ok v ->
            JS.endsWith v "//" = false -> JS.endsWith (stripSlash b) "/" = false).
  { intros v Hv H2. rewrite Eb in Hv; injection Hv as ->.
    destruct (JS.endsWith (stripSlash v) "/") eqn:E; [|reflexivity].
    apply stripSlash_endsWith in E. congruence. }
  destruct (isAccountShaped (eff cs)).
  - apply accountPath_ok in H
      as (u & name & keyText & -> & En & Ek & Hn & Hk & Hu1 & Hu2).
    cbn [accountName_of accountKey_of accountSas_of url_of].
    split; [assumption|]. split; [|split; [discriminate|split]].
    + intros key Hkey; injection Hkey as <-; assumption.
    + exists b. split; [assumption|]. split; [assumption|].
      intro F. destruct (Hu2 F) as (protocol & suffix & Ep & Es & _ & _ & ->).
      exists protocol, suffix. auto.
    + intros v Hv H2 Hsuf.
      destruct (JS.falsy (stripSlash b)) eqn:F.
      * apply falsy_true in F.
        destruct (Hu2 F) as (protocol & suffix & Ep & Es & _ & Hs & ->).
        rewrite synthesized_endsWith by assumption.
        rewrite Eb in Hv; injection Hv as ->. eauto.
      * apply falsy_false in F. rewrite (Hu1 F). eauto.
  - apply sasPath_ok in H as (name & sas & -> & Es & En & Hb & Hs & Hn).
    cbn [accountName_of accountKey_of accountSas_of url_of].
    split; [assumption|]. split; [discriminate|]. split; [|split].
    + intros s Hsas; injection Hsas as <-; assumption.
    + exists b. split; [assumption|]. split; [reflexivity|].
      intro F. contradiction.
    + intros v Hv H2 _. eauto.
Qed.

(** On the SAS branch the account name is derived from the endpoint
    before the endpoint is tested: with the endpoint absent, and a URL
    parser that finds no host in the empty text, the parse stops at the
    host error and the endpoint test is never reached. *)
Lemma sas_absent_endpoint (cs blob sas : string) :
  getHost (URLBuilder_parse "") = None ->
  JS.startsWith cs "UseDevelopmentStorage=true" = false ->
  isAccountShaped cs = false ->
  getValueInConnString cs "BlobEndpoint" = Ok blob ->
  stripSlash blob = "" ->
  getValueInConnString cs "SharedAccessSignature" = Ok sas ->
  extract cs = Throw (Error msgUnable).
Proof.
  intros Hh He Hs Hb Hstrip Hsas.
  rewrite extract_plain, extractFrom_sas by assumption.
  rewrite Hb; cbn [bind]. unfold sasPath. rewrite Hsas; cbn [bind].
  rewrite Hstrip, (accountNameFromUrl_no_host _ _ Hh). reflexivity.
Qed.


(** C6: an Account-Key connection string without a [BlobEndpoint] value,
    whose [DefaultEndpointsProtocol] is http or https in any letter case,
    whose [EndpointSuffix] and [AccountName] are not empty and whose
    [AccountKey] decodes to at least one byte, parses to the Account-Key
    variant with base URL [protocol://accountName.blob.endpointSuffix],
    the protocol as the connection string spells it. *)
Theorem synthesized_endpoint (cs protocol name keyText suffix : string) :
  JS.startsWith cs "UseDevelopmentStorage=true" = false ->
  contains cs "DefaultEndpointsProtocol=" ->
  contains cs "AccountKey=" ->
  getValueInConnString cs "BlobEndpoint" = Ok "" ->
  getValueInConnString cs "DefaultEndpointsProtocol" = Ok protocol ->
  JS.toLowerCase protocol = "https" \/ JS.toLowerCase protocol = "http" ->
  getValueInConnString cs "EndpointSuffix" = Ok suffix ->
  suffix <> "" ->
  getValueInConnString cs "AccountName" = Ok name ->
  name <> "" ->
  getValueInConnString cs "AccountKey" = Ok keyText ->
  Buffer_from_base64 keyText <> [] ->
  extract cs =
  Ok (AccountConnString (protocol ++ "://" ++ name ++ ".blob." ++ suffix)
        name (Buffer_from_base64 keyText) "").
Proof.
  intros He Hp Hk Hb Hproto Hlow Hsuf Hs Hname Hn Hkey Hkb.
  rewrite extract_plain by assumption.
  rewrite extractFrom_account by (apply isAccountShaped_true; auto).
  rewrite Hb; cbn [bind]. unfold accountPath.
  rewrite Hname, Hkey; cbn [bind].
  change (stripSlash "") with "". cbn [JS.falsy].
  rewrite Hproto; cbn [bind].
  assert (Hl : negb (String.eqb (JS.toLowerCase protocol) "https") &&
               negb (String.eqb (JS.toLowerCase protocol) "http") = false).
  { destruct Hlow as [-> | ->]; reflexivity. }
  rewrite Hl, Hsuf; cbn [bind].
  apply falsy_false in Hs, Hn. rewrite Hs; cbn [bind]. rewrite Hn.
  destruct (Buffer_from_base64 keyText) eqn:E; [contradiction|reflexivity].
Qed.

(** C7: on a SAS-form connection string with an endpoint and a signature,
    the account name is the first dot-separated label of the endpoint's
    host when the second label is [blob], and the first path segment of
    the endpoint otherwise. *)
Theorem sas_account_name (cs blob sas host : string) :
  JS.startsWith cs "UseDevelopmentStorage=true" = false ->
  isAccountShaped cs = false ->
  getValueInConnString cs "BlobEndpoint" = Ok blob ->
  stripSlash blob <> "" ->
  getValueInConnString cs "SharedAccessSignature" = Ok sas ->
  sas <> "" ->
  getHost (URLBuilder_parse (stripSlash blob)) = Some host ->
  (forall first,
     nth_error (JS.split "." host) 1 = Some "blob" ->
     nth_error (JS.split "." host) 0 = Some first ->
     first <> "" ->
     extract cs = Ok (SASConnString (stripSlash blob) first sas)) /\
  (forall path segment,
     nth_error (JS.split "." host) 1 <> Some "blob" ->
     getPath (URLBuilder_parse (stripSlash blob)) = Some path ->
     firstPathSegment path = Some segment ->
     segment <> "" ->
     extract cs = Ok (SASConnString (stripSlash blob) segment sas)).
Proof.
  intros He Hshape Hb Hne Hsas Hs Hhost.
  assert (Eq : forall name,
    getAccountNameFromUrl URLBuilder_parse (stripSlash blob) = Ok name ->
    extract cs = Ok (SASConnString (stripSlash blob) name sas)).
  { intros name Hname.
    rewrite extract_plain, extractFrom_sas by assumption.
    rewrite Hb; cbn [bind]. unfold sasPath. rewrite Hsas, Hname; cbn [bind].
    apply accountNameFromUrl_ok in Hname as [Hn _].
    apply falsy_false in Hne, Hs, Hn. now rewrite Hne, Hs, Hn. }
  split.
  - intros first H1 H0 Hf. apply Eq.
    unfold getAccountNameFromUrl. rewrite Hhost; cbn [deref bind].
    rewrite H1, H0. rewrite String.eqb_refl; cbn [bind].
    apply falsy_false in Hf. now rewrite Hf.
  - intros path segment H1 Hpath Hseg Hf. apply Eq.
    apply firstPathSegment_index in Hseg.
    unfold getAccountNameFromUrl. rewrite Hhost, Hpath; cbn [deref bind].
    replace (match nth_error (JS.split "." host) 1 with
             | Some label => String.eqb label "blob"
             | None => false
             end) with false.
    + cbn [bind]. rewrite Hseg. apply falsy_false in Hf. now rewrite Hf.
    + destruct (nth_error (JS.split "." host) 1) as [label|]; [|reflexivity].
      symmetry. apply String.eqb_neq. congruence.
Qed.

(** C8: the emulator shorthand with a proxy URI parses to what the
    emulator's own connection string parses to, its account name and key,
    with the proxy URI of the shorthand. *)
Theorem emulator_shorthand (u name : string) (key : list byte) :
  extractFrom URLBuilder_parse Buffer_from_base64
    DevelopmentConnectionString "" =
    Ok (AccountConnString u name key "") ->
  extractConnectionStringParts URLBuilder_parse Buffer_from_base64
    DevelopmentConnectionString
    "UseDevelopmentStorage=true;DevelopmentStorageProxyUri=http://x" =
    Ok (AccountConnString u name key "http://x").
Proof.
  intro H. rewrite extract_effective.
  change (JS.startsWith
            "UseDevelopmentStorage=true;DevelopmentStorageProxyUri=http://x"
            "UseDevelopmentStorage=true") with true.
  change (getProxyUriFromDevConnString
            "UseDevelopmentStorage=true;DevelopmentStorageProxyUri=http://x")
    with (@Ok string "http://x").
  cbn [bind].
  change (eff "UseDevelopmentStorage=true;DevelopmentStorageProxyUri=http://x")
    with DevelopmentConnectionString.
  now apply extractFrom_proxy with (p := "") (p0 := "").
Qed.

(** C10: the branch is chosen by searching the whole text.  Wherever the
    two literals stand in the connection string, inside a value or at the
    end of a longer key as well, the parse is the Account-Key branch on the
    effective connection string. *)
Theorem branch_by_substring (cs pre1 post1 pre2 post2 : string) :
  cs = pre1 ++ "DefaultEndpointsProtocol=" ++ post1 ->
  cs = pre2 ++ "AccountKey=" ++ post2 ->
  isAccountShaped DevelopmentConnectionString = true ->
  extract cs =
  (proxyUri <- (if JS.startsWith cs "UseDevelopmentStorage=true"
                then getProxyUriFromDevConnString cs else Ok "") ;;
   blobEndpoint <- getValueInConnString (eff cs) "BlobEndpoint" ;;
   accountPath Buffer_from_base64 (eff cs) (stripSlash blobEndpoint) proxyUri).
Proof.
  intros H1 H2 Hdev. rewrite extract_effective.
  assert (Hshape : isAccountShaped (eff cs) = true).
  { unfold effective.
    destruct (JS.startsWith cs "UseDevelopmentStorage=true"); [assumption|].
    apply isAccountShaped_true. split; [exists pre1, post1|exists pre2, post2];
      assumption. }
  destruct (if JS.startsWith cs "UseDevelopmentStorage=true"
            then getProxyUriFromDevConnString cs else Ok "");
    cbn [bind]; [|reflexivity].
  now apply extractFrom_account.
Qed.

End ParserClaims.

(** ** The claim about the issuer *)

(** No exception of the program stands for the unsupported-credential
    error. *)
Lemma classify_never_unsupported (e : exn) :
  classify e <> Some UnsupportedCredentialKind.
Proof.
  destruct e as [m|]; cbn; [|discriminate].
  repeat match goal with
         | |- context [String.eqb ?a ?b] => destruct (String.eqb a b)
         end; discriminate.
Qed.

Section IssuerClaims.

Variable URLBuilder_parse : string -> URLBuilder.
Variable Buffer_from_base64 : string -> list byte.
Variable DevelopmentConnectionString : string.
Variable Buffer_toString_base64 : list byte -> string.
Variable ContainerSASPermissions : Type.
Variable ContainerSASPermissions_parse : string -> result ContainerSASPermissions.
Variable Date : Type.
Variable addHours : Date -> Z -> Date.
Variable generateBlobSASQueryParameters :
  string -> ContainerSASPermissions -> Date -> string * string -> result string.

Local Abbreviation extract :=
  (extractConnectionStringParts URLBuilder_parse Buffer_from_base64
     DevelopmentConnectionString).
Local Abbreviation generate :=
  (generateSasToken URLBuilder_parse Buffer_from_base64
     DevelopmentConnectionString Buffer_toString_base64
     ContainerSASPermissions_parse addHours generateBlobSASQueryParameters).

(** C2, as the code has it: [generateSasToken] has no guard for the SAS
    variant.  On a connection string that parses to it, with any
    container, permissions and instant, the call fails with the runtime's
    [TypeError], raised where the missing account key is used; that is not
    the unsupported-credential error. *)
Theorem sas_credential_issue_fails (now : Date)
  (cs container permissions u name sas : string) :
  extract cs = Ok (SASConnString u name sas) ->
  generate now cs container permissions = Throw TypeError /\
  ~ failsWith (generate now cs container permissions) UnsupportedCredentialKind.
Proof.
  intro H.
  assert (E : generate now cs container permissions = Throw TypeError).
  { unfold generateSasToken. rewrite H. reflexivity. }
  split; [exact E|]. rewrite E. intros (e & He & Hc).
  injection He as <-. discriminate.
Qed.

End IssuerClaims.

(** ** The tokenizer of the URL library runs to its end *)

Ltac rank_cases :=
  cbn [CoreHttp.currentState]; unfold CoreHttp.stateAt;
  repeat match goal with
         | |- context [match ?x with _ => _ end] => destruct x
         end;
  simpl; lia.

(** Every token moves the tokenizer to a later state. *)
Lemma next_rank (t t' : CoreHttp.URLTokenizer) (type : CoreHttp.URLTokenType)
  (text : string) :
  CoreHttp.next t = Some (type, text, t') ->
  CoreHttp.rank (CoreHttp.currentState t') <
  CoreHttp.rank (CoreHttp.currentState t).
Proof.
  unfold CoreHttp.next.
  destruct (CoreHttp.remaining t) as [|a s]; [discriminate|].
  destruct (CoreHttp.currentState t); intro H; try discriminate;
    injection H as H.
  - unfold CoreHttp.nextSchemeOrHost in H.
    destruct (CoreHttp.readUntilCharacter _ _) as [r rest].
    destruct rest as [|c rest].
    + injection H as _ _ <-. rank_cases.
    + destruct (Ascii.eqb c ":").
      * destruct (JS.startsWith _ _); injection H as _ _ <-; rank_cases.
      * injection H as _ _ <-. rank_cases.
  - unfold CoreHttp.nextHost in H.
    destruct (CoreHttp.readUntilCharacter _ _) as [r rest].
    injection H as _ _ <-. rank_cases.
  - unfold CoreHttp.nextPort in H.
    destruct (CoreHttp.readUntilCharacter _ _) as [r rest].
    injection H as _ _ <-. rank_cases.
  - unfold CoreHttp.nextPath in H.
    destruct (CoreHttp.readUntilCharacter _ _) as [r rest].
    injection H as _ _ <-. rank_cases.
  - subst t'. rank_cases.
Qed.

(** With fuel for every state still ahead, the loop stops because the
    tokenizer has no further token, not because the fuel is spent. *)
Lemma setLoop_done (fuel : nat) (t : CoreHttp.URLTokenizer) (b : URLBuilder) :
  CoreHttp.rank (CoreHttp.currentState t) <= fuel ->
  CoreHttp.next (snd (CoreHttp.setLoop fuel t b)) = None.
Proof.
  revert t b; induction fuel as [|fuel IH]; intros t b Hr.
  - simpl. unfold CoreHttp.next.
    destruct (CoreHttp.remaining t); [reflexivity|].
    destruct (CoreHttp.currentState t); simpl in Hr; try lia; reflexivity.
  - simpl. destruct (CoreHttp.next t) as [[[type text] t']|] eqn:E.
    + apply IH. apply next_rank in E. lia.
    + simpl. exact E.
Qed.

Lemma parse_runs_to_the_end (text : string) :
  CoreHttp.next
    (snd (CoreHttp.setLoop 5 (CoreHttp.mkTokenizer text CoreHttp.SCHEME_OR_HOST)
            (mkURLBuilder None None None None None))) = None.
Proof. apply setLoop_done. simpl. lia. Qed.

(** ** The paths of the URL library start with a separator *)

Lemma stateAt_path (rest : string) (onColon : CoreHttp.URLTokenizerState) :
  onColon <> CoreHttp.PATH ->
  CoreHttp.stateAt rest onColon = CoreHttp.PATH ->
  exists r, rest = String "/" r.
Proof.
  intros Hc. unfold CoreHttp.stateAt.
  destruct rest as [|c rest]; [discriminate|].
  destruct (Ascii.eqb c ":"); [intro; contradiction|].
  destruct (Ascii.eqb c "/") eqn:E; [|discriminate].
  apply Ascii.eqb_eq in E. subst c. now exists rest.
Qed.

Lemma next_keeps_paths (t t' : CoreHttp.URLTokenizer)
  (type : CoreHttp.URLTokenType) (text : string) (b : URLBuilder) :
  CoreHttp.next t = Some (type, text, t') ->
  pathStateAtSlash t -> absolutePath b ->
  pathStateAtSlash t' /\ absolutePath (CoreHttp.setToken b type text).
Proof.
  unfold CoreHttp.next, pathStateAtSlash.
  destruct (CoreHttp.remaining t) as [|a s] eqn:Er; [discriminate|].
  destruct (CoreHttp.currentState t) eqn:Es; intros H Ht Hb;
    try discriminate; injection H as H.
  - unfold CoreHttp.nextSchemeOrHost in H.
    destruct (CoreHttp.readUntilCharacter _ _) as [r rest].
    destruct rest as [|c rest].
    + injection H as <- _ <-. split; [discriminate|exact Hb].
    + destruct (Ascii.eqb c ":").
      * destruct (JS.startsWith _ _); injection H as <- _ <-;
          (split; [discriminate|exact Hb]).
      * injection H as <- _ <-. split; [|exact Hb].
        cbn [CoreHttp.currentState CoreHttp.remaining]. intro Hst.
        apply (@stateAt_path _ CoreHttp.PORT); [discriminate|exact Hst].
  - unfold CoreHttp.nextHost in H.
    destruct (CoreHttp.readUntilCharacter _ _) as [r rest].
    injection H as <- _ <-. split; [|exact Hb].
    cbn [CoreHttp.currentState CoreHttp.remaining].
    apply stateAt_path. discriminate.
  - unfold CoreHttp.nextPort in H.
    destruct (CoreHttp.readUntilCharacter _ _) as [r rest].
    injection H as <- _ <-. split; [|exact Hb].
    cbn [CoreHttp.currentState CoreHttp.remaining].
    apply stateAt_path. discriminate.
  - destruct (Ht eq_refl) as [r0 Hr0]. injection Hr0 as -> ->.
    unfold CoreHttp.nextPath, CoreHttp.readUntilCharacter in H.
    cbn [CoreHttp.readWhile] in H.
    change (negb (existsb (Ascii.eqb "/") ["?"%char])) with true in H.
    cbv iota in H.
    destruct (CoreHttp.readWhile _ r0) as [r rest].
    injection H as <- <- <-. split.
    + cbn [CoreHttp.currentState]. destruct rest; discriminate.
    + unfold absolutePath, CoreHttp.setToken.
      change (CoreHttp.orUndefined (String "/" r)) with (Some (String "/" r)).
      destruct (_ || _ || _); [|exact Hb].
      cbn [getPath]. intros p Hp. injection Hp as <-. now exists r.
  - subst type t'. split; [discriminate|exact Hb].
Qed.

Lemma setLoop_keeps_paths (fuel : nat) (t : CoreHttp.URLTokenizer)
  (b : URLBuilder) :
  pathStateAtSlash t -> absolutePath b ->
  absolutePath (fst (CoreHttp.setLoop fuel t b)).
Proof.
  revert t b; induction fuel as [|fuel IH]; intros t b Ht Hb; simpl.
  - exact Hb.
  - destruct (CoreHttp.next t) as [[[type text] t']|] eqn:E; [|exact Hb].
    destruct (next_keeps_paths E Ht Hb) as [Ht' Hb'].
    now apply IH.
Qed.

(** So element 1 of the path split at the separators, which the parser
    takes for the account name, is the path's first segment. *)
Lemma parse_path_absolute (text path : string) :
  getPath (CoreHttp.parse text) = Some path ->
  (exists r, path = String "/" r) /\
  firstPathSegment path = nth_error (JS.split "/" path) 1.
Proof.
  intro H.
  assert (Ha : exists r, path = String "/" r).
  { revert H. apply setLoop_keeps_paths.
    - intro Hs. discriminate.
    - intros p Hp. discriminate. }
  split; [exact Ha|]. destruct Ha as [r ->].
  cbn [firstPathSegment JS.split]. rewrite Ascii.eqb_refl.
  change (hd_error (JS.split "/" r) = nth_error (JS.split "/" r) 0).
  now rewrite nth_error_0_hd.
Qed.

(** ** The claims on concrete connection strings *)

Lemma contains_by_search (s t : string) :
  JS.search s t <> (-1)%Z -> contains s t.
Proof. apply search_found. Defined.

Lemma not_contains_by_search (s t : string) :
  JS.search s t = (-1)%Z -> ~ contains s t.
Proof. intros H Hc. apply search_found in Hc. contradiction. Defined.

(** C1, the claim as written fails: this string holds
    [DefaultEndpointsProtocol=] and no [AccountKey=], and it parses, on the
    SAS branch, to a SAS credential. *)
Lemma missing_key_parses_as_sas :
  contains Sample.protocolWithSas "DefaultEndpointsProtocol=" /\
  ~ contains Sample.protocolWithSas "AccountKey=" /\
  parse Sample.protocolWithSas =
    Ok (SASConnString "https://acct.blob.core.windows.net" "acct" "sig") /\
  ~ failsWith (parse Sample.protocolWithSas) InvalidAccountKey.
Proof.
  split; [|split; [|split]].
  - apply contains_by_search. vm_compute. discriminate.
  - apply not_contains_by_search. vm_compute. reflexivity.
  - vm_compute. reflexivity.
  - intros (e & H & _). vm_compute in H. discriminate.
Qed.

Lemma missing_key_witness :
  contains Sample.missingKey "DefaultEndpointsProtocol=" /\
  ~ contains Sample.missingKey "AccountKey=" /\
  JS.startsWith Sample.missingKey "UseDevelopmentStorage=true" = false /\
  parse Sample.missingKey =
    (blobEndpoint <- getValueInConnString Sample.missingKey "BlobEndpoint" ;;
     sasPath CoreHttp.parse Sample.missingKey (stripSlash blobEndpoint)) /\
  ~ failsWith (parse Sample.missingKey) InvalidAccountKey /\
  (forall c, parse Sample.missingKey = Ok c -> isAccountConnString c = false).
Proof.
  assert (H1 : contains Sample.missingKey "DefaultEndpointsProtocol=").
  { apply contains_by_search. vm_compute. discriminate. }
  assert (H2 : ~ contains Sample.missingKey "AccountKey=").
  { apply not_contains_by_search. vm_compute. reflexivity. }
  assert (H3 : JS.startsWith Sample.missingKey "UseDevelopmentStorage=true" = false).
  { vm_compute. reflexivity. }
  split; [exact H1|]. split; [exact H2|]. split; [exact H3|].
  exact (missing_key_takes_sas_branch CoreHttp.parse Node.Buffer_from_base64
           emulatorConnectionString H1 H2 H3).
Defined.

(** C2, the claim as written fails: issuing from a connection string that
    parses to the SAS variant ends in a [TypeError], which is not the
    unsupported-credential error. *)
Lemma sas_issue_is_type_error :
  parse Sample.sasForm =
    Ok (SASConnString "https://foo.blob.core.example.com" "foo" "sig") /\
  issue 0 Sample.sasForm "images" "c" = Throw TypeError /\
  ~ failsWith (issue 0 Sample.sasForm "images" "c") UnsupportedCredentialKind.
Proof.
  split; [vm_compute; reflexivity|].
  split; [vm_compute; reflexivity|].
  intros (e & H & Hc). vm_compute in H. injection H as <-. discriminate.
Qed.

Lemma sas_credential_issue_witness :
  parse Sample.sasForm =
    Ok (SASConnString "https://foo.blob.core.example.com" "foo" "sig") /\
  issue 0 Sample.sasForm "images" "c" = Throw TypeError /\
  ~ failsWith (issue 0 Sample.sasForm "images" "c") UnsupportedCredentialKind.
Proof.
  assert (H : parse Sample.sasForm =
    Ok (SASConnString "https://foo.blob.core.example.com" "foo" "sig")).
  { vm_compute. reflexivity. }
  split; [exact H|].
  exact (sas_credential_issue_fails CoreHttp.parse Node.Buffer_from_base64
           emulatorConnectionString FakeSdk.Buffer_toString_base64
           FakeSdk.ContainerSASPermissions_parse FakeSdk.addHours
           FakeSdk.generateBlobSASQueryParameters 0%Z Sample.sasForm
           "images" "c" H).
Defined.

(** An Account-Key connection string also issues, on the stand-in SDK:
    the base URL is the parsed endpoint. *)
Example account_key_issues :
  issue 0 Sample.accountKeyForm "images" "c" =
  Ok (mkSasToken "sig=fixed" "https://acct.blob.core.windows.net").
Proof. vm_compute. reflexivity. Qed.

(** C3, what the code does on a [BlobEndpoint] value that ends with two
    separators: one of them is sliced off, and the base URL of the parsed
    credential ends with the other, where the code's own comment has the
    callers expect a URL without a separator at the end. *)
Theorem double_slash_keeps_one :
  parse Sample.doubleSlash =
    Ok (AccountConnString "https://acct.blob.core.windows.net/" "acct"
          ["a"; "b"; "c"]%byte "") /\
  JS.endsWith "https://acct.blob.core.windows.net/" "/" = true.
Proof. split; vm_compute; reflexivity. Qed.

Lemma parse_invariants_witness :
  parse Sample.accountKeyForm =
    Ok (AccountConnString "https://acct.blob.core.windows.net" "acct"
          ["a"; "b"; "c"]%byte "") /\
  "acct" <> "" /\
  (forall key,
     Some ["a"; "b"; "c"]%byte = Some key -> key <> []) /\
  JS.endsWith "https://acct.blob.core.windows.net" "/" = false.
Proof.
  assert (H : parse Sample.accountKeyForm =
    Ok (AccountConnString "https://acct.blob.core.windows.net" "acct"
          ["a"; "b"; "c"]%byte "")).
  { vm_compute. reflexivity. }
  split; [exact H|].
  destruct (parse_invariants CoreHttp.parse Node.Buffer_from_base64
              emulatorConnectionString Sample.accountKeyForm H)
    as (Hn & Hk & _ & _ & Hu).
  split; [exact Hn|]. split; [exact Hk|].
  apply (Hu "").
  - vm_compute. reflexivity.
  - vm_compute. reflexivity.
  - intros _ suffix Hs. vm_compute in Hs. injection Hs as <-.
    vm_compute. reflexivity.
Defined.

(** C4, what the code does on a SAS connection string without
    [BlobEndpoint]: the host error, not the endpoint error. *)
Theorem sas_without_endpoint_unparseable :
  isAccountShaped Sample.sasWithoutEndpoint = false /\
  getValueInConnString Sample.sasWithoutEndpoint "BlobEndpoint" = Ok "" /\
  parse Sample.sasWithoutEndpoint = Throw (Error msgUnable) /\
  failsWith (parse Sample.sasWithoutEndpoint) UnparseableHost /\
  ~ failsWith (parse Sample.sasWithoutEndpoint) InvalidBlobEndpoint.
Proof.
  split; [vm_compute; reflexivity|].
  split; [vm_compute; reflexivity|].
  assert (H : parse Sample.sasWithoutEndpoint = Throw (Error msgUnable)).
  { apply sas_absent_endpoint with (blob := "") (sas := "sv=2020-08-04&sig=abc");
      vm_compute; reflexivity. }
  split; [exact H|]. rewrite H. split.
  - exists (Error msgUnable). split; reflexivity.
  - intros (e & He & Hc). injection He as <-. discriminate.
Qed.


(** With both secrets present the credential is the Account-Key one. *)
Example both_secrets_parse :
  parse Sample.bothSecrets =
  Ok (AccountConnString "https://acct.blob.core.windows.net" "acct"
        ["a"; "b"; "c"]%byte "").
Proof. vm_compute. reflexivity. Qed.

(** The example of C6: base URL [https://acct.blob.core.windows.net] and
    account name [acct]. *)
Lemma synthesized_endpoint_witness :
  parse Sample.accountKeyForm =
  Ok (AccountConnString "https://acct.blob.core.windows.net" "acct"
        (Node.Buffer_from_base64 "YWJj") "").
Proof.
  apply (synthesized_endpoint CoreHttp.parse Node.Buffer_from_base64
           emulatorConnectionString (cs := Sample.accountKeyForm)
           (protocol := "https") (name := "acct") (keyText := "YWJj")
           (suffix := "core.windows.net")).
  - vm_compute. reflexivity.
  - apply contains_by_search. vm_compute. discriminate.
  - apply contains_by_search. vm_compute. discriminate.
  - vm_compute. reflexivity.
  - vm_compute. reflexivity.
  - left. vm_compute. reflexivity.
  - vm_compute. reflexivity.
  - discriminate.
  - vm_compute. reflexivity.
  - discriminate.
  - vm_compute. reflexivity.
  - vm_compute. discriminate.
Defined.

(** The protocol keeps the letter case of the connection string. *)
Example upper_case_protocol :
  parse Sample.upperCaseProtocol =
  Ok (AccountConnString "HTTPS://acct.blob.core.windows.net" "acct"
        ["a"; "b"; "c"]%byte "").
Proof. vm_compute. reflexivity. Qed.

(** The examples of C7: host [foo.blob.core.example.com] gives [foo], and
    [localhost:10001/devstoreaccount1/] gives [devstoreaccount1]. *)
Lemma sas_account_name_witness :
  parse Sample.sasForm =
    Ok (SASConnString "https://foo.blob.core.example.com" "foo" "sig") /\
  parse Sample.sasPathStyle =
    Ok (SASConnString "localhost:10001/devstoreaccount1" "devstoreaccount1"
          "sig").
Proof.
  split.
  - refine (proj1 (sas_account_name CoreHttp.parse Node.Buffer_from_base64
              emulatorConnectionString Sample.sasForm
              (blob := "https://foo.blob.core.example.com") (sas := "sig")
              (host := "foo.blob.core.example.com") _ _ _ _ _ _ _)
              "foo" _ _ _);
      try (vm_compute; reflexivity); discriminate.
  - refine (proj2 (sas_account_name CoreHttp.parse Node.Buffer_from_base64
              emulatorConnectionString Sample.sasPathStyle
              (blob := "localhost:10001/devstoreaccount1/") (sas := "sig")
              (host := "localhost") _ _ _ _ _ _ _)
              "/devstoreaccount1" "devstoreaccount1" _ _ _ _);
      try (vm_compute; reflexivity); discriminate.
Defined.

Lemma emulator_shorthand_witness :
  extractFrom CoreHttp.parse Node.Buffer_from_base64
    emulatorConnectionString "" =
    Ok (AccountConnString "http://127.0.0.1:10000/devstoreaccount1"
          "devstoreaccount1" Sample.emulatorKey "") /\
  parse Sample.emulatorWithProxy =
    Ok (AccountConnString "http://127.0.0.1:10000/devstoreaccount1"
          "devstoreaccount1" Sample.emulatorKey "http://x").
Proof.
  assert (H : extractFrom CoreHttp.parse Node.Buffer_from_base64
    emulatorConnectionString "" =
    Ok (AccountConnString "http://127.0.0.1:10000/devstoreaccount1"
          "devstoreaccount1" Sample.emulatorKey "")).
  { vm_compute. reflexivity. }
  split; [exact H|].
  exact (emulator_shorthand CoreHttp.parse Node.Buffer_from_base64
           emulatorConnectionString H).
Defined.

(** C9, what the code does with a repeated [DevelopmentStorageProxyUri]:
    the loop has no exit, and the value of the last occurrence is the
    one kept; [getValueInConnString] keeps the first
    ([getValue_loop_first]). *)
Theorem proxy_uri_last_occurrence :
  getProxyUriFromDevConnString Sample.emulatorTwoProxies = Ok "http://b" /\
  (exists c, parse Sample.emulatorTwoProxies = Ok c /\
             proxyUri_of c = Some "http://b") /\
  getValueInConnString
    "AccountName=first;AccountName=second" "AccountName" = Ok "first".
Proof.
  split; [vm_compute; reflexivity|]. split; [|vm_compute; reflexivity].
  eexists. split; vm_compute; reflexivity.
Qed.

Lemma branch_by_substring_witness :
  parse Sample.literalsInsideValues =
    (proxyUri <- Ok "" ;;
     blobEndpoint <-
       getValueInConnString Sample.literalsInsideValues "BlobEndpoint" ;;
     accountPath Node.Buffer_from_base64 Sample.literalsInsideValues
       (stripSlash blobEndpoint) proxyUri) /\
  parse Sample.literalsInsideValues = Throw (Error msgAccountName).
Proof.
  split; [|vm_compute; reflexivity].
  exact (@branch_by_substring CoreHttp.parse Node.Buffer_from_base64
           emulatorConnectionString
           Sample.literalsInsideValues
           "BlobEndpoint=https://x.blob.core.windows.net/?"
           "https;MyAccountKey=YWJj;SharedAccessSignature=sig"
           "BlobEndpoint=https://x.blob.core.windows.net/?DefaultEndpointsProtocol=https;My"
           "YWJj;SharedAccessSignature=sig"
           eq_refl eq_refl eq_refl).
Defined.

(** * Further properties of the code *)

(** ** More facts about the string methods *)

Lemma split_no_separator (sep : ascii) (x : string) :
  hasChar sep x = false -> JS.split sep x = [x].
Proof.
  induction x as [|a x IH]; cbn [hasChar JS.split]; [reflexivity|].
  intro H. apply orb_false_iff in H as [Ha Hx].
  rewrite Ha, (IH Hx). reflexivity.
Qed.

Lemma split_segment (sep : ascii) (x rest : string) :
  hasChar sep x = false ->
  JS.split sep (x ++ String sep rest) = x :: JS.split sep rest.
Proof.
  induction x as [|a x IH]; cbn [hasChar JS.split String.append].
  - intros _. now rewrite Ascii.eqb_refl.
  - intro H. apply orb_false_iff in H as [Ha Hx].
    rewrite Ha, (IH Hx). reflexivity.
Qed.

(** Splitting what was joined gives the segments back. *)
Lemma split_join (sep : ascii) (segments : list string) :
  segments <> [] ->
  Forall (fun x => hasChar sep x = false) segments ->
  JS.split sep (join sep segments) = segments.
Proof.
  intros Hne H. induction H as [|x rest Hx Hrest IH]; [contradiction|].
  destruct rest as [|y rest].
  - cbn [join]. now apply split_no_separator.
  - change (join sep (x :: y :: rest))
      with (x ++ String sep (join sep (y :: rest))).
    rewrite split_segment by assumption.
    rewrite IH by discriminate. reflexivity.
Qed.

Lemma drop_append (a b : string) : JS.drop (String.length a) (a ++ b) = b.
Proof. induction a; simpl; auto. Qed.

Lemma dotStar_singleLine (s : string) :
  singleLine s = true -> JS.dotStar s = s.
Proof.
  induction s as [|a s IH]; cbn [singleLine JS.dotStar]; [reflexivity|].
  intro H. apply andb_true_iff in H as [Ha Hs].
  apply negb_true_iff in Ha. rewrite Ha, (IH Hs). reflexivity.
Qed.

Lemma dotStar_cut (v rest : string) (t : ascii) :
  singleLine v = true -> JS.isLineTerminator t = true ->
  JS.dotStar (v ++ String t rest) = v.
Proof.
  intros Hv Ht. induction v as [|a v IH]; cbn [JS.dotStar String.append].
  - now rewrite Ht.
  - cbn [singleLine] in Hv. apply andb_true_iff in Hv as [Ha Hv].
    apply negb_true_iff in Ha. rewrite Ha, (IH Hv). reflexivity.
Qed.

Lemma indexOf_none (s t : string) :
  ~ contains s t -> JS.indexOf s t = None.
Proof.
  intro H. destruct (JS.indexOf s t) as [i|] eqn:E; [|reflexivity].
  exfalso. apply H. destruct (indexOf_some _ _ E) as (pre & post & Hs & _).
  now exists pre, post.
Qed.

(** The pattern matches an element that is the key, the equals sign and
    a value; the group captures the value up to its first line
    terminator. *)
Lemma match_key_value (key value : string) :
  JS.match_group1 (key ++ "=" ++ value) (key ++ "=") =
  Some (JS.dotStar value).
Proof.
  unfold JS.match_group1.
  replace (key ++ "=" ++ value) with ((key ++ "=") ++ value)
    by apply append_assoc.
  rewrite startsWith_indexOf by apply startsWith_app.
  cbn [Nat.add]. now rewrite drop_append.
Qed.

Lemma startsWith_key_value (key value : string) :
  JS.startsWith (key ++ "=" ++ value) key = true.
Proof. apply startsWith_app. Qed.

(** ** Looking a key up in a connection string *)

(** A segment that does not start with the key is passed over. *)
Lemma getValue_loop_skip (before after : list string) (x argument : string) :
  JS.startsWith (JS.trim x) argument = false ->
  getValue_loop (before ++ x :: after)%list argument =
  getValue_loop (before ++ after)%list argument.
Proof.
  intro Hx. induction before as [|b before IH]; cbn [app getValue_loop].
  - now rewrite Hx.
  - now rewrite IH.
Qed.

Lemma getValue_first_segment (before after : list string)
  (element key value : string) :
  (before ++ element :: after)%list <> [] ->
  Forall (fun x => hasChar ";" x = false) (before ++ element :: after)%list ->
  Forall (fun x => JS.startsWith (JS.trim x) key = false) before ->
  JS.trim element = key ++ "=" ++ value ->
  getValueInConnString (join ";" (before ++ element :: after)%list) key =
  Ok (JS.dotStar value).
Proof.
  intros Hne Hsep Hb He. unfold getValueInConnString.
  rewrite split_join by assumption.
  rewrite getValue_loop_first; [|assumption|].
  - now rewrite He, match_key_value.
  - rewrite He. apply startsWith_key_value.
Qed.

(** X1: reading back what was written.  For a key without syntax
    characters of regular expressions, in a connection string joined
    from segments without semicolons, the value of the key is the value of
    the first segment that, trimmed, starts with the key, when that segment
    is the key, the equals sign and a value without line terminators;
    the value may hold equals signs, and the segments after it do not
    matter. *)
Theorem lookup_returns_first_value (before after : list string)
  (element key value : string) :
  plainPattern key = true ->
  Forall (fun x => hasChar ";" x = false) (before ++ element :: after)%list ->
  Forall (fun x => JS.startsWith (JS.trim x) key = false) before ->
  JS.trim element = key ++ "=" ++ value ->
  singleLine value = true ->
  getValueInConnString (join ";" (before ++ element :: after)%list) key = Ok value.
Proof.
  intros _ Hsep Hb He Hv.
  rewrite (@getValue_first_segment before after element key value);
    try assumption.
  - now rewrite dotStar_singleLine.
  - destruct before; discriminate.
Qed.

(** X2: a value stops at its first line terminator.  Trimming removes
    line terminators only at the ends of a segment; one inside the value
    cuts the value there.  The key has no syntax characters of regular
    expressions. *)
Theorem lookup_cuts_at_line_terminator (before after : list string)
  (element key value rest : string) (t : ascii) :
  plainPattern key = true ->
  Forall (fun x => hasChar ";" x = false) (before ++ element :: after)%list ->
  Forall (fun x => JS.startsWith (JS.trim x) key = false) before ->
  JS.trim element = key ++ "=" ++ value ++ String t rest ->
  singleLine value = true ->
  JS.isLineTerminator t = true ->
  getValueInConnString (join ";" (before ++ element :: after)%list) key = Ok value.
Proof.
  intros _ Hsep Hb He Hv Ht.
  rewrite (@getValue_first_segment before after element key
             (value ++ String t rest)); try assumption.
  - now rewrite dotStar_cut.
  - destruct before; discriminate.
Qed.

(** X3: unknown keys are ignored.  A segment that, trimmed, does not
    start with the key can be added to or taken out of a connection
    string without changing what is read for the key. *)
Theorem lookup_ignores_other_segments (before after : list string)
  (x key : string) :
  (before ++ after)%list <> [] ->
  Forall (fun s => hasChar ";" s = false) (before ++ x :: after)%list ->
  JS.startsWith (JS.trim x) key = false ->
  getValueInConnString (join ";" (before ++ x :: after)%list) key =
  getValueInConnString (join ";" (before ++ after)%list) key.
Proof.
  intros Hne Hsep Hx. unfold getValueInConnString.
  assert (Hsep' : Forall (fun s => hasChar ";" s = false) (before ++ after)%list).
  { apply Forall_app in Hsep as [H1 H2]. apply Forall_app. split; [assumption|].
    now inversion H2. }
  rewrite !split_join; try assumption.
  - now apply getValue_loop_skip.
  - destruct before; discriminate.
Qed.

(** X4: a key is matched as a prefix.  For a key without syntax
    characters of regular expressions, when the first segment that starts
    with the key does not hold the key followed by the equals sign, as
    [BlobEndpointUrl=...] for the key [BlobEndpoint], the lookup raises the
    runtime's [TypeError]; the segments after it are not tried. *)
Theorem lookup_prefix_type_error (cs : string) (before after : list string)
  (element key : string) :
  plainPattern key = true ->
  JS.split ";" cs = (before ++ element :: after)%list ->
  Forall (fun x => JS.startsWith (JS.trim x) key = false) before ->
  JS.startsWith (JS.trim element) key = true ->
  ~ contains (JS.trim element) (key ++ "=") ->
  getValueInConnString cs key = Throw TypeError.
Proof.
  intros _ Hs Hb He Hn. unfold getValueInConnString. rewrite Hs.
  rewrite getValue_loop_first by assumption.
  unfold JS.match_group1. now rewrite indexOf_none.
Qed.

(** ** The proxy URI of the emulator shorthand *)

Lemma proxyUri_loop_result (elements : list string) (p : string) :
  exists v, proxyUri_loop elements p = Ok v /\
    (v = p \/
     exists element, In element elements /\
       JS.startsWith (JS.trim element) "DevelopmentStorageProxyUri=" = true /\
       v = JS.dotStar
             (JS.drop (String.length "DevelopmentStorageProxyUri=")
                (JS.trim element))).
Proof.
  revert p; induction elements as [|element rest IH]; intro p;
    cbn [proxyUri_loop].
  - exists p. auto.
  - destruct (JS.startsWith (JS.trim element) "DevelopmentStorageProxyUri=") eqn:E.
    + unfold JS.match_group1. rewrite (startsWith_indexOf _ _ E).
      cbn [deref bind Nat.add].
      destruct (IH (JS.dotStar
                      (JS.drop (String.length "DevelopmentStorageProxyUri=")
                         (JS.trim element)))) as (v & Hv & [->|(x & Hx & Hs & ->)]).
      * exists (JS.dotStar
                  (JS.drop (String.length "DevelopmentStorageProxyUri=")
                     (JS.trim element))).
        split; [assumption|]. right. exists element. simpl. auto.
      * eexists. split; [eassumption|]. right. exists x. simpl. auto.
    + destruct (IH p) as (v & Hv & [->|(x & Hx & Hs & ->)]).
      * exists p. auto.
      * eexists. split; [eassumption|]. right. exists x. simpl. auto.
Qed.

(** X5: [getProxyUriFromDevConnString] never throws.  It returns the empty
    string or what follows the key in one of the segments that, trimmed,
    start with [DevelopmentStorageProxyUri=]: the pattern always matches
    such a segment, so indexing the match cannot fail. *)
Theorem proxy_scan_never_throws (cs : string) :
  exists v, getProxyUriFromDevConnString cs = Ok v /\
    (v = "" \/
     exists element, In element (JS.split ";" cs) /\
       JS.startsWith (JS.trim element) "DevelopmentStorageProxyUri=" = true /\
       v = JS.dotStar
             (JS.drop (String.length "DevelopmentStorageProxyUri=")
                (JS.trim element))).
Proof.
  unfold getProxyUriFromDevConnString.
  destruct (negb _).
  - apply proxyUri_loop_result.
  - exists "". auto.
Qed.

Lemma proxyUri_loop_none (elements : list string) (p : string) :
  Forall (fun x =>
    JS.startsWith (JS.trim x) "DevelopmentStorageProxyUri=" = false) elements ->
  proxyUri_loop elements p = Ok p.
Proof.
  induction 1 as [|x l Hx _ IH]; cbn [proxyUri_loop]; [reflexivity|].
  now rewrite Hx.
Qed.

(** X6: the proxy URI is read from segments only.  When no segment,
    trimmed, starts with [DevelopmentStorageProxyUri=], the result is the
    empty string, also when the literal stands somewhere inside a
    segment and the search of the whole text finds it. *)
Theorem proxy_needs_its_own_segment (cs : string) :
  Forall (fun x =>
    JS.startsWith (JS.trim x) "DevelopmentStorageProxyUri=" = false)
    (JS.split ";" cs) ->
  getProxyUriFromDevConnString cs = Ok "".
Proof.
  intro H. unfold getProxyUriFromDevConnString.
  destruct (negb _); [|reflexivity].
  now apply proxyUri_loop_none.
Qed.

(** ** More about the parser *)

Section ParserExtras.

Variable URLBuilder_parse : string -> URLBuilder.
Variable Buffer_from_base64 : string -> list byte.
Variable DevelopmentConnectionString : string.

Local Abbreviation extract :=
  (extractConnectionStringParts URLBuilder_parse Buffer_from_base64
     DevelopmentConnectionString).
Local Abbreviation extractAt := (extractFrom URLBuilder_parse Buffer_from_base64).
Local Abbreviation eff := (effective DevelopmentConnectionString).

(** The Account-Key branch once the endpoint is known: the account name
    is tested first, then the key. *)
Lemma accountPath_explicit (cs blob p name keyText : string) :
  blob <> "" ->
  getValueInConnString cs "AccountName" = Ok name ->
  getValueInConnString cs "AccountKey" = Ok keyText ->
  accountPath Buffer_from_base64 cs blob p =
  if JS.falsy name then Throw (Error msgAccountName)
  else if Nat.eqb (List.length (Buffer_from_base64 keyText)) 0
  then Throw (Error msgAccountKey)
  else Ok (AccountConnString blob name (Buffer_from_base64 keyText) p).
Proof.
  intros Hb Hn Hk. unfold accountPath. rewrite Hn, Hk; cbn [bind].
  apply falsy_false in Hb. rewrite Hb; cbn [bind]. reflexivity.
Qed.

Lemma plain_account (cs blob : string) :
  JS.startsWith cs "UseDevelopmentStorage=true" = false ->
  contains cs "DefaultEndpointsProtocol=" ->
  contains cs "AccountKey=" ->
  getValueInConnString cs "BlobEndpoint" = Ok blob ->
  extract cs = accountPath Buffer_from_base64 cs (stripSlash blob) "".
Proof.
  intros He Hp Hk Hb.
  unfold extractConnectionStringParts. rewrite He.
  unfold extractFrom. rewrite Hb; cbn [bind].
  now rewrite (proj2 (isAccountShaped_true cs) (conj Hp Hk)).
Qed.

Lemma plain_sas (cs blob : string) :
  JS.startsWith cs "UseDevelopmentStorage=true" = false ->
  isAccountShaped cs = false ->
  getValueInConnString cs "BlobEndpoint" = Ok blob ->
  extract cs = sasPath URLBuilder_parse cs (stripSlash blob).
Proof.
  intros He Hs Hb.
  unfold extractConnectionStringParts. rewrite He.
  unfold extractFrom. rewrite Hb; cbn [bind]. now rewrite Hs.
Qed.

(** X7: an explicit endpoint is taken as it is.  An Account-Key
    connection string with a [BlobEndpoint], an account name and a key
    that decodes to at least one byte parses to that endpoint, less one
    trailing separator; [DefaultEndpointsProtocol] and [EndpointSuffix]
    are not looked at. *)
Theorem explicit_endpoint (cs blob name keyText : string) :
  JS.startsWith cs "UseDevelopmentStorage=true" = false ->
  contains cs "DefaultEndpointsProtocol=" ->
  contains cs "AccountKey=" ->
  getValueInConnString cs "BlobEndpoint" = Ok blob ->
  stripSlash blob <> "" ->
  getValueInConnString cs "AccountName" = Ok name ->
  name <> "" ->
  getValueInConnString cs "AccountKey" = Ok keyText ->
  Buffer_from_base64 keyText <> [] ->
  extract cs =
  Ok (AccountConnString (stripSlash blob) name (Buffer_from_base64 keyText) "").
Proof.
  intros He Hp Hk Hb Hs Hn Hne Hkey Hkb.
  rewrite (@plain_account cs blob He Hp Hk Hb).
  rewrite (@accountPath_explicit cs (stripSlash blob) "" name keyText Hs Hn Hkey).
  apply falsy_false in Hne. rewrite Hne.
  destruct (Buffer_from_base64 keyText); [contradiction|reflexivity].
Qed.

(** X8: the protocol is tested first.  Without an endpoint, a
    [DefaultEndpointsProtocol] that is neither http nor https fails the
    parse with the protocol error, whatever the account name, the key and
    the suffix are. *)
Theorem invalid_protocol_first (cs blob name keyText protocol : string) :
  JS.startsWith cs "UseDevelopmentStorage=true" = false ->
  contains cs "DefaultEndpointsProtocol=" ->
  contains cs "AccountKey=" ->
  getValueInConnString cs "BlobEndpoint" = Ok blob ->
  stripSlash blob = "" ->
  getValueInConnString cs "AccountName" = Ok name ->
  getValueInConnString cs "AccountKey" = Ok keyText ->
  getValueInConnString cs "DefaultEndpointsProtocol" = Ok protocol ->
  JS.toLowerCase protocol <> "https" ->
  JS.toLowerCase protocol <> "http" ->
  extract cs = Throw (Error msgProtocol) /\
  failsWith (extract cs) InvalidProtocol.
Proof.
  intros He Hp Hk Hb Hs Hn Hkey Hproto H1 H2.
  assert (E : extract cs = Throw (Error msgProtocol)).
  { rewrite (@plain_account cs blob He Hp Hk Hb), Hs.
    unfold accountPath. rewrite Hn, Hkey; cbn [bind JS.falsy].
    rewrite Hproto; cbn [bind].
    apply String.eqb_neq in H1, H2. rewrite H1, H2. reflexivity. }
  split; [exact E|]. rewrite E. eexists; split; reflexivity.
Qed.

(** X9: then the suffix.  Without an endpoint and with a valid protocol,
    an absent or empty [EndpointSuffix] fails the parse with the suffix
    error, whatever the account name and the key are. *)
Theorem invalid_suffix_second (cs blob name keyText protocol : string) :
  JS.startsWith cs "UseDevelopmentStorage=true" = false ->
  contains cs "DefaultEndpointsProtocol=" ->
  contains cs "AccountKey=" ->
  getValueInConnString cs "BlobEndpoint" = Ok blob ->
  stripSlash blob = "" ->
  getValueInConnString cs "AccountName" = Ok name ->
  getValueInConnString cs "AccountKey" = Ok keyText ->
  getValueInConnString cs "DefaultEndpointsProtocol" = Ok protocol ->
  JS.toLowerCase protocol = "https" \/ JS.toLowerCase protocol = "http" ->
  getValueInConnString cs "EndpointSuffix" = Ok "" ->
  extract cs = Throw (Error msgSuffix) /\
  failsWith (extract cs) InvalidEndpointSuffix.
Proof.
  intros He Hp Hk Hb Hs Hn Hkey Hproto Hlow Hsuf.
  assert (E : extract cs = Throw (Error msgSuffix)).
  { rewrite (@plain_account cs blob He Hp Hk Hb), Hs.
    unfold accountPath. rewrite Hn, Hkey; cbn [bind JS.falsy].
    rewrite Hproto; cbn [bind].
    assert (Hl : negb (String.eqb (JS.toLowerCase protocol) "https") &&
                 negb (String.eqb (JS.toLowerCase protocol) "http") = false).
    { destruct Hlow as [-> | ->]; reflexivity. }
    rewrite Hl, Hsuf. reflexivity. }
  split; [exact E|]. rewrite E. eexists; split; reflexivity.
Qed.

(** X10: with an explicit endpoint, an absent or empty [AccountName]
    fails the parse with the account-name error, before the key is
    tested. *)
Theorem invalid_account_name (cs blob keyText : string) :
  JS.startsWith cs "UseDevelopmentStorage=true" = false ->
  contains cs "DefaultEndpointsProtocol=" ->
  contains cs "AccountKey=" ->
  getValueInConnString cs "BlobEndpoint" = Ok blob ->
  stripSlash blob <> "" ->
  getValueInConnString cs "AccountName" = Ok "" ->
  getValueInConnString cs "AccountKey" = Ok keyText ->
  extract cs = Throw (Error msgAccountName) /\
  failsWith (extract cs) InvalidAccountName.
Proof.
  intros He Hp Hk Hb Hs Hn Hkey.
  assert (E : extract cs = Throw (Error msgAccountName)).
  { rewrite (@plain_account cs blob He Hp Hk Hb).
    now rewrite (@accountPath_explicit cs (stripSlash blob) "" "" keyText Hs Hn Hkey). }
  split; [exact E|]. rewrite E. eexists; split; reflexivity.
Qed.

(** X11: with an explicit endpoint and an account name, an [AccountKey]
    that decodes to no byte at all, the empty value included, fails the
    parse with the account-key error. *)
Theorem invalid_account_key (cs blob name keyText : string) :
  JS.startsWith cs "UseDevelopmentStorage=true" = false ->
  contains cs "DefaultEndpointsProtocol=" ->
  contains cs "AccountKey=" ->
  getValueInConnString cs "BlobEndpoint" = Ok blob ->
  stripSlash blob <> "" ->
  getValueInConnString cs "AccountName" = Ok name ->
  name <> "" ->
  getValueInConnString cs "AccountKey" = Ok keyText ->
  Buffer_from_base64 keyText = [] ->
  extract cs = Throw (Error msgAccountKey) /\
  failsWith (extract cs) InvalidAccountKey.
Proof.
  intros He Hp Hk Hb Hs Hn Hne Hkey Hkb.
  assert (E : extract cs = Throw (Error msgAccountKey)).
  { rewrite (@plain_account cs blob He Hp Hk Hb).
    rewrite (@accountPath_explicit cs (stripSlash blob) "" name keyText Hs Hn Hkey).
    apply falsy_false in Hne. now rewrite Hne, Hkb. }
  split; [exact E|]. rewrite E. eexists; split; reflexivity.
Qed.

(** X12: a SAS connection string without a signature.  With an endpoint
    from which the account name can be derived, an absent or empty
    [SharedAccessSignature] fails the parse with the signature error. *)
Theorem sas_missing_signature (cs blob name : string) :
  JS.startsWith cs "UseDevelopmentStorage=true" = false ->
  isAccountShaped cs = false ->
  getValueInConnString cs "BlobEndpoint" = Ok blob ->
  stripSlash blob <> "" ->
  getValueInConnString cs "SharedAccessSignature" = Ok "" ->
  getAccountNameFromUrl URLBuilder_parse (stripSlash blob) = Ok name ->
  extract cs = Throw (Error msgSas) /\
  failsWith (extract cs) InvalidSharedAccessSignature.
Proof.
  intros He Hs Hb Hne Hsas Hname.
  assert (E : extract cs = Throw (Error msgSas)).
  { rewrite (@plain_sas cs blob He Hs Hb). unfold sasPath.
    rewrite Hsas, Hname; cbn [bind].
    apply falsy_false in Hne. now rewrite Hne. }
  split; [exact E|]. rewrite E. eexists; split; reflexivity.
Qed.

(** X13: the host is looked at before the signature.  A SAS connection
    string whose endpoint has a host with a second label other than
    [blob] and no path fails with the host error, whether the signature
    is there or not. *)
Theorem sas_host_without_path (cs blob sas host : string) :
  JS.startsWith cs "UseDevelopmentStorage=true" = false ->
  isAccountShaped cs = false ->
  getValueInConnString cs "BlobEndpoint" = Ok blob ->
  getValueInConnString cs "SharedAccessSignature" = Ok sas ->
  getHost (URLBuilder_parse (stripSlash blob)) = Some host ->
  nth_error (JS.split "." host) 1 <> Some "blob" ->
  getPath (URLBuilder_parse (stripSlash blob)) = None ->
  extract cs = Throw (Error msgUnable) /\
  failsWith (extract cs) UnparseableHost.
Proof.
  intros He Hs Hb Hsas Hhost Hlabel Hpath.
  assert (E : extract cs = Throw (Error msgUnable)).
  { rewrite (@plain_sas cs blob He Hs Hb). unfold sasPath.
    rewrite Hsas; cbn [bind].
    replace (getAccountNameFromUrl URLBuilder_parse (stripSlash blob))
      with (@Throw string (Error msgUnable)); [reflexivity|].
    unfold getAccountNameFromUrl. rewrite Hhost, Hpath; cbn [deref bind].
    replace (match nth_error (JS.split "." host) 1 with
             | Some label => String.eqb label "blob"
             | None => false
             end) with false; [reflexivity|].
    destruct (nth_error (JS.split "." host) 1) as [label|]; [|reflexivity].
    symmetry. apply String.eqb_neq. congruence. }
  split; [exact E|]. rewrite E. eexists; split; reflexivity.
Qed.

(** X14: every exception of the parser.  A failed parse ends in the
    runtime's [TypeError] or in an [Error] with one of seven messages; the
    SAS branch's account-name error and the inner message of
    [getAccountNameFromUrl] never come out. *)
Theorem parser_exceptions (cs : string) (e : exn) :
  extract cs = Throw e ->
  e = TypeError \/
  exists m, e = Error m /\
    In m [msgProtocol; msgSuffix; msgAccountName; msgAccountKey;
          msgUnable; msgBlobEndpoint; msgSas].
Proof.
  intro H. apply extract_throw in H as (p & H).
  unfold extractFrom in H.
  apply bind_throw in H as [H|(b & _ & H)].
  { left. eapply getValue_throw; eassumption. }
  destruct (isAccountShaped (eff cs)).
  - apply accountPath_throw in H as [-> | [-> | [-> | [-> | ->]]]];
      [now left| right; eexists; split; [reflexivity|simpl; tauto] ..].
  - apply sasPath_throw in H as [-> | [-> | [-> | ->]]];
      [now left| right; eexists; split; [reflexivity|simpl; tauto] ..].
Qed.

(** X15: the endpoint error of the SAS branch cannot happen.  With a URL
    parser that finds no host in the empty text, no connection string at
    all makes the parse fail with that error: an empty endpoint fails
    earlier, in [getAccountNameFromUrl]. *)
Theorem endpoint_error_unreachable (cs : string) :
  getHost (URLBuilder_parse "") = None ->
  extract cs <> Throw (Error msgBlobEndpoint) /\
  ~ failsWith (extract cs) InvalidBlobEndpoint.
Proof.
  intro Hh.
  assert (Hmain : forall e, extract cs = Throw e ->
            classify e <> Some InvalidBlobEndpoint).
  { intros e H. apply extract_throw in H as (p & H).
    unfold extractFrom in H.
    apply bind_throw in H as [H|(b & _ & H)].
    { apply getValue_throw in H. subst e. discriminate. }
    destruct (isAccountShaped (eff cs)).
    - apply accountPath_throw in H as [-> | [-> | [-> | [-> | ->]]]];
        discriminate.
    - unfold sasPath in H.
      apply bind_throw in H as [H|(sas & _ & H)].
      { apply getValue_throw in H. subst e. discriminate. }
      apply bind_throw in H as [H|(name & En & H)].
      { apply accountNameFromUrl_throw in H. subst e. discriminate. }
      destruct (JS.falsy (stripSlash b)) eqn:F.
      + apply falsy_true in F. rewrite F in En.
        rewrite (accountNameFromUrl_no_host _ _ Hh) in En. discriminate.
      + destruct (JS.falsy sas); [injection H as <-; discriminate|].
        destruct (JS.falsy name); [injection H as <-|]; discriminate. }
  split.
  - intro H. now apply (Hmain _ H).
  - intros (e & H & Hc). now apply (Hmain _ H).
Qed.

(** X16: the emulator shorthand stands for the emulator's account.  A
    connection string that starts with [UseDevelopmentStorage=true]
    parses to the account name, key and endpoint of the emulator's own
    connection string, whatever else it holds; only the proxy URI is read
    from it. *)
Theorem emulator_ignores_other_fields (cs u name : string) (key : list byte) :
  JS.startsWith cs "UseDevelopmentStorage=true" = true ->
  extractAt DevelopmentConnectionString "" =
    Ok (AccountConnString u name key "") ->
  exists proxyUri,
    getProxyUriFromDevConnString cs = Ok proxyUri /\
    extract cs = Ok (AccountConnString u name key proxyUri).
Proof.
  intros He H. destruct (getProxyUri_ok cs) as [p Hp].
  exists p. split; [assumption|].
  unfold extractConnectionStringParts. rewrite He, Hp; cbn [bind].
  now apply extractFrom_proxy with (p := "") (p0 := "").
Qed.

(** X17: only the emulator shorthand has a proxy URI.  A credential
    parsed from any other connection string carries the empty proxy URI,
    a [DevelopmentStorageProxyUri] segment notwithstanding. *)
Theorem plain_proxy_is_empty (cs : string) (c : ConnectionString) (p : string) :
  JS.startsWith cs "UseDevelopmentStorage=true" = false ->
  extract cs = Ok c ->
  proxyUri_of c = Some p ->
  p = "".
Proof.
  intros He H Hp. unfold extractConnectionStringParts in H.
  rewrite He in H. unfold extractFrom in H.
  apply bind_ok in H as (b & _ & H).
  destruct (isAccountShaped cs).
  - apply accountPath_ok in H as (u & n & k & -> & _).
    cbn in Hp. congruence.
  - apply sasPath_ok in H as (n & s & -> & _). discriminate.
Qed.

(** X18: a SAS credential is consistent with its URL.  Its URL is the
    [BlobEndpoint] value less one trailing separator and is not empty, its
    signature is the [SharedAccessSignature] value, and its account name
    is the one [getAccountNameFromUrl] derives from its URL. *)
Theorem sas_credential_consistent (cs u name sas : string) :
  extract cs = Ok (SASConnString u name sas) ->
  u <> "" /\
  getAccountNameFromUrl URLBuilder_parse u = Ok name /\
  getValueInConnString (eff cs) "SharedAccessSignature" = Ok sas /\
  exists blob,
    getValueInConnString (eff cs) "BlobEndpoint" = Ok blob /\
    u = stripSlash blob.
Proof.
  intro H. apply extract_ok in H as (p & H).
  unfold extractFrom in H. apply bind_ok in H as (b & Eb & H).
  destruct (isAccountShaped (eff cs)).
  - apply accountPath_ok in H as (u' & n & k & H & _). discriminate.
  - apply sasPath_ok in H as (n & s & H & Es & En & Hb & _).
    injection H as -> -> ->. eauto 10.
Qed.

(** X19: the base URL of a parsed credential is never empty. *)
Theorem parsed_url_not_empty (cs : string) (c : ConnectionString) :
  extract cs = Ok c -> url_of c <> "".
Proof.
  intro H. apply extract_ok in H as (p & H).
  unfold extractFrom in H. apply bind_ok in H as (b & _ & H).
  destruct (isAccountShaped (eff cs)).
  - apply accountPath_ok in H
      as (u & n & k & -> & _ & _ & Hn & _ & Hu1 & Hu2).
    cbn [url_of]. destruct (JS.falsy (stripSlash b)) eqn:F.
    + apply falsy_true in F.
      destruct (Hu2 F) as (protocol & suffix & _ & _ & _ & _ & ->).
      destruct protocol; discriminate.
    + apply falsy_false in F. now rewrite (Hu1 F).
  - apply sasPath_ok in H as (n & s & -> & _ & _ & Hb & _). exact Hb.
Qed.

(** X20: [getAccountNameFromUrl] returns a name that is not empty or
    throws its one error.  Whatever goes wrong inside, a missing host or
    path or an empty name, comes out with the same message. *)
Theorem account_name_or_one_error (u : string) :
  (exists name,
     getAccountNameFromUrl URLBuilder_parse u = Ok name /\ name <> "") \/
  getAccountNameFromUrl URLBuilder_parse u = Throw (Error msgUnable).
Proof.
  destruct (getAccountNameFromUrl URLBuilder_parse u) as [name|e] eqn:E.
  - left. exists name. split; [reflexivity|].
    now apply accountNameFromUrl_ok in E as [Hn _].
  - right. now apply accountNameFromUrl_throw in E as ->.
Qed.

(** X21: no second try on the path.  When the host's second label is
    [blob] and its first label is empty, the account name is not taken
    from the path instead: the derivation fails. *)
Theorem blob_host_without_account (u host : string) :
  getHost (URLBuilder_parse u) = Some host ->
  nth_error (JS.split "." host) 1 = Some "blob" ->
  nth_error (JS.split "." host) 0 = Some "" ->
  getAccountNameFromUrl URLBuilder_parse u = Throw (Error msgUnable).
Proof.
  intros Hh H1 H0. unfold getAccountNameFromUrl.
  rewrite Hh; cbn [deref bind]. rewrite H1, H0. reflexivity.
Qed.

End ParserExtras.

(** ** The issuer and the request handler *)

Section IssuerExtras.

Variable URLBuilder_parse : string -> URLBuilder.
Variable Buffer_from_base64 : string -> list byte.
Variable DevelopmentConnectionString : string.
Variable Buffer_toString_base64 : list byte -> string.
Variable ContainerSASPermissions : Type.
Variable ContainerSASPermissions_parse : string -> result ContainerSASPermissions.
Variable Date : Type.
Variable addHours : Date -> Z -> Date.
Variable generateBlobSASQueryParameters :
  string -> ContainerSASPermissions -> Date -> string * string -> result string.

Local Abbreviation extract :=
  (extractConnectionStringParts URLBuilder_parse Buffer_from_base64
     DevelopmentConnectionString).
Local Abbreviation generate :=
  (generateSasToken URLBuilder_parse Buffer_from_base64
     DevelopmentConnectionString Buffer_toString_base64
     ContainerSASPermissions_parse addHours generateBlobSASQueryParameters).
Local Abbreviation handle :=
  (handler URLBuilder_parse Buffer_from_base64
     DevelopmentConnectionString Buffer_toString_base64
     ContainerSASPermissions_parse addHours generateBlobSASQueryParameters).

(** A token comes from an Account-Key credential, and carries its URL. *)
Lemma token_contents_aux (now : Date) (cs container permissions : string)
  (token : SasToken) :
  generate now cs container permissions = Ok token ->
  exists u name key proxyUri,
    extract cs = Ok (AccountConnString u name key proxyUri) /\
    url token = u.
Proof.
  unfold generateSasToken. intro H.
  apply bind_ok in H as (parts & Ep & H).
  apply bind_ok in H as (key & Ek & H).
  apply bind_ok in H as (perms & Eperm & H).
  apply bind_ok in H as (sig & Esig & H).
  injection H as <-.
  destruct parts as [u name key' proxyUri|]; [|discriminate].
  exists u, name, key', proxyUri. auto.
Qed.

(** X23: a handler that finished has answered.  When the exported
    function ends without exception, the variable [AzureWebJobsStorage]
    held a connection string that parses to the Account-Key variant, the
    response body is the token [generateSasToken] makes for the container
    [images] and the permission [c], with the parsed base URL, and
    [context.done()] was called. *)
Theorem handler_answer (context : Context) (env : option string) (now : Date) :
  snd (handle context env now) = None ->
  exists cs u name key proxyUri token,
    env = Some cs /\
    extract cs = Ok (AccountConnString u name key proxyUri) /\
    generate now cs "images" "c" = Ok token /\
    url token = u /\
    fst (handle context env now) = mkContext (Some token) true.
Proof.
  unfold handler, generateSasTokenFromEnv.
  destruct env as [cs|]; cbn [deref bind]; [|discriminate].
  destruct (generate now cs "images" "c") as [token|e] eqn:E;
    cbn [fst snd]; [intros _|discriminate].
  destruct (token_contents_aux _ _ _ _ E)
    as (u & name & key & proxyUri & Ep & Hu).
  exists cs, u, name, key, proxyUri, token. auto 10.
Qed.

(** X24: a handler that cannot answer leaves the context alone.  When
    [AzureWebJobsStorage] is not set, or holds a connection string that
    parses to the SAS variant, the exported function ends in the
    runtime's [TypeError]; the response is not written and
    [context.done()] is not called. *)
Theorem handler_type_error (context : Context) (env : option string)
  (now : Date) :
  env = None \/
  (exists cs u name sas,
     env = Some cs /\ extract cs = Ok (SASConnString u name sas)) ->
  handle context env now = (context, Some TypeError).
Proof.
  unfold handler, generateSasTokenFromEnv.
  intros [-> | (cs & u & name & sas & -> & H)]; cbn [deref bind].
  - reflexivity.
  - unfold generateSasToken. rewrite H. reflexivity.
Qed.

End IssuerExtras.

(** ** The blob name of the upload front end *)

Lemma take_drop (n : nat) (s : string) :
  FrontEnd.take n s ++ JS.drop n s = s.
Proof.
  revert s; induction n as [|n IH]; intros [|a s]; simpl; try reflexivity.
  now rewrite IH.
Qed.

Lemma take_all (s : string) : FrontEnd.take (String.length s) s = s.
Proof. induction s; simpl; congruence. Qed.

Lemma take_append (a b : string) :
  FrontEnd.take (String.length a) (a ++ b) = a.
Proof. induction a; simpl; [now destruct b|congruence]. Qed.

Lemma length_append (a b : string) :
  String.length (a ++ b) = String.length a + String.length b.
Proof. induction a; simpl; congruence. Qed.

Lemma lastPosition_bound (s : string) (c : ascii) (i : nat) :
  FrontEnd.lastPosition s c = Some i -> i < String.length s.
Proof.
  revert i; induction s as [|a s IH]; intros i; cbn [FrontEnd.lastPosition];
    [discriminate|].
  destruct (FrontEnd.lastPosition s c) as [j|].
  - intro H; injection H as <-. specialize (IH j eq_refl). simpl. lia.
  - destruct (Ascii.eqb a c); [|discriminate].
    intro H; injection H as <-. simpl. lia.
Qed.

Lemma lastPosition_none (s : string) (c : ascii) :
  hasChar c s = false -> FrontEnd.lastPosition s c = None.
Proof.
  induction s as [|a s IH]; cbn [hasChar FrontEnd.lastPosition];
    [reflexivity|].
  intro H. apply orb_false_iff in H as [Ha Hs].
  now rewrite (IH Hs), Ha.
Qed.

Lemma lastPosition_last (base e : string) (c : ascii) :
  hasChar c e = false ->
  FrontEnd.lastPosition (base ++ String c e) c = Some (String.length base).
Proof.
  intro He. induction base as [|a base IH];
    cbn [String.append FrontEnd.lastPosition String.length].
  - now rewrite (lastPosition_none _ _ He), Ascii.eqb_refl.
  - now rewrite IH.
Qed.

(** The two substrings of [buildBlobName] at a position inside the name,
    and at -1. *)
Lemma substring_at (name : string) (i : nat) :
  i <= String.length name ->
  FrontEnd.substring name 0 (Z.of_nat i) = FrontEnd.take i name /\
  FrontEnd.substringFrom name (Z.of_nat i) = JS.drop i name.
Proof.
  intro Hi. unfold FrontEnd.substringFrom, FrontEnd.substring.
  replace (Z.max 0 (Z.min 0 (Z.of_nat (String.length name)))) with 0%Z by lia.
  replace (Z.max 0 (Z.min (Z.of_nat i) (Z.of_nat (String.length name))))
    with (Z.of_nat i) by lia.
  replace (Z.max 0 (Z.min (Z.of_nat (String.length name))
                      (Z.of_nat (String.length name))))
    with (Z.of_nat (String.length name)) by lia.
  replace (Z.min 0 (Z.of_nat i)) with 0%Z by lia.
  replace (Z.max 0 (Z.of_nat i)) with (Z.of_nat i) by lia.
  replace (Z.min (Z.of_nat i) (Z.of_nat (String.length name)))
    with (Z.of_nat i) by lia.
  replace (Z.max (Z.of_nat i) (Z.of_nat (String.length name)))
    with (Z.of_nat (String.length name)) by lia.
  rewrite !Nat2Z.id. change (Z.to_nat 0) with 0.
  cbn [JS.drop]. now rewrite take_all.
Qed.

Lemma substring_at_minus_one (name : string) :
  FrontEnd.substring name 0 (-1) = "" /\
  FrontEnd.substringFrom name (-1) = name.
Proof.
  unfold FrontEnd.substringFrom, FrontEnd.substring.
  replace (Z.max 0 (Z.min 0 (Z.of_nat (String.length name)))) with 0%Z by lia.
  replace (Z.max 0 (Z.min (-1) (Z.of_nat (String.length name))))
    with 0%Z by lia.
  replace (Z.max 0 (Z.min (Z.of_nat (String.length name))
                      (Z.of_nat (String.length name))))
    with (Z.of_nat (String.length name)) by lia.
  replace (Z.min 0 (Z.of_nat (String.length name))) with 0%Z by lia.
  replace (Z.max 0 (Z.of_nat (String.length name)))
    with (Z.of_nat (String.length name)) by lia.
  change (Z.min 0 0) with 0%Z. change (Z.max 0 0) with 0%Z.
  rewrite !Nat2Z.id. change (Z.to_nat 0) with 0.
  cbn [JS.drop FrontEnd.take]. split; [reflexivity|apply take_all].
Qed.

(** The two parts [buildBlobName] cuts the name into. *)
Lemma buildBlobName_parts (random name : string) :
  exists filename ext,
    name = filename ++ ext /\
    FrontEnd.buildBlobName random name =
      filename ++ "_" ++ JS.drop 2 random ++ ext /\
    (FrontEnd.lastPosition name "." = None -> filename = "") /\
    (forall i, FrontEnd.lastPosition name "." = Some i ->
       filename = FrontEnd.take i name /\ ext = JS.drop i name).
Proof.
  unfold FrontEnd.buildBlobName, FrontEnd.lastIndexOf.
  destruct (FrontEnd.lastPosition name ".") as [i|] eqn:E.
  - apply lastPosition_bound in E.
    destruct (@substring_at name i) as [-> ->]; [lia|].
    exists (FrontEnd.take i name), (JS.drop i name).
    split; [now rewrite take_drop|]. split; [reflexivity|].
    split; [discriminate|]. intros j Hj; injection Hj as <-. auto.
  - destruct (substring_at_minus_one name) as [-> ->].
    exists "", name. split; [reflexivity|]. split; [reflexivity|].
    split; [reflexivity|]. intros i Hi. discriminate.
Qed.

(** X25: the blob name is the file name with the random part put in.
    Taking the underscore and the random digits out of the blob name
    gives the file name back, for every file name; nothing of the name
    is lost or repeated. *)
Theorem blob_name_keeps_file_name (random name : string) :
  exists filename ext,
    name = filename ++ ext /\
    FrontEnd.buildBlobName random name =
      filename ++ "_" ++ JS.drop 2 random ++ ext /\
    String.length (FrontEnd.buildBlobName random name) =
      String.length name + 1 + String.length (JS.drop 2 random).
Proof.
  destruct (buildBlobName_parts random name)
    as (filename & ext & Hn & Hb & _).
  exists filename, ext. split; [assumption|]. split; [assumption|].
  rewrite Hb, Hn, !length_append. simpl. lia.
Qed.

(** X26: a file name without a dot.  The whole name is taken for the
    extension, and the random part goes in front of it. *)
Theorem blob_name_without_dot (random name : string) :
  hasChar "." name = false ->
  FrontEnd.buildBlobName random name = "_" ++ JS.drop 2 random ++ name.
Proof.
  intro H. apply lastPosition_none in H.
  unfold FrontEnd.buildBlobName, FrontEnd.lastIndexOf. rewrite H.
  now destruct (substring_at_minus_one name) as [-> ->].
Qed.

(** X27: a file name with a dot keeps its extension.  The random part
    goes in before the last dot, also when nothing stands before that
    dot. *)
Theorem blob_name_keeps_extension (random base extension : string) :
  hasChar "." extension = false ->
  FrontEnd.buildBlobName random (base ++ "." ++ extension) =
  base ++ "_" ++ JS.drop 2 random ++ "." ++ extension.
Proof.
  intro H.
  pose proof (@lastPosition_last base extension "." H) as Hl.
  unfold FrontEnd.buildBlobName, FrontEnd.lastIndexOf.
  change (base ++ "." ++ extension) with (base ++ String "." extension).
  rewrite Hl.
  destruct (@substring_at (base ++ String "." extension) (String.length base))
    as [-> ->].
  - rewrite length_append. lia.
  - now rewrite take_append, drop_append.
Qed.

Example upload_address :
  FrontEnd.blobUpload "0.8f3a" "cat.png" "https://acct.blob.core.windows.net"
    "images" "sig=fixed" =
  "https://acct.blob.core.windows.net/images/cat_8f3a.png?sig=fixed".
Proof. reflexivity. Qed.

(** ** The further properties on concrete inputs *)

Ltac by_computation := vm_compute; reflexivity.

Ltac discharge :=
  first [ by_computation
        | apply contains_by_search; vm_compute; discriminate
        | apply not_contains_by_search; by_computation
        | discriminate
        | vm_compute; discriminate
        | left; by_computation
        | right; by_computation ].

Lemma lookup_returns_first_value_witness :
  getValueInConnString
    "DefaultEndpointsProtocol=https; AccountKey=YWJj== ;AccountKey=other"
    "AccountKey" = Ok "YWJj==".
Proof.
  refine (@lookup_returns_first_value
            ["DefaultEndpointsProtocol=https"] ["AccountKey=other"]
            " AccountKey=YWJj== " "AccountKey" "YWJj==" _ _ _ _ _).
  - by_computation.
  - repeat constructor.
  - repeat constructor.
  - by_computation.
  - by_computation.
Defined.

Lemma lookup_cuts_at_line_terminator_witness :
  getValueInConnString ("AccountName=ab" ++ String "010" "cd") "AccountName"
  = Ok "ab".
Proof.
  refine (@lookup_cuts_at_line_terminator [] []
            ("AccountName=ab" ++ String "010" "cd") "AccountName" "ab" "cd"
            "010"%char _ _ _ _ _ _).
  - by_computation.
  - repeat constructor.
  - constructor.
  - by_computation.
  - by_computation.
  - by_computation.
Defined.

Lemma lookup_ignores_other_segments_witness :
  getValueInConnString "AccountName=acct;Unknown=1;AccountKey=YWJj" "AccountKey"
  = getValueInConnString "AccountName=acct;AccountKey=YWJj" "AccountKey".
Proof.
  refine (@lookup_ignores_other_segments
            ["AccountName=acct"] ["AccountKey=YWJj"] "Unknown=1" "AccountKey"
            _ _ _).
  - discriminate.
  - repeat constructor.
  - by_computation.
Defined.

Lemma lookup_prefix_type_error_witness :
  getValueInConnString "BlobEndpointUrl=https://x;BlobEndpoint=https://y"
    "BlobEndpoint" = Throw TypeError.
Proof.
  refine (@lookup_prefix_type_error
            "BlobEndpointUrl=https://x;BlobEndpoint=https://y"
            [] ["BlobEndpoint=https://y"] "BlobEndpointUrl=https://x"
            "BlobEndpoint" _ _ _ _ _).
  - by_computation.
  - by_computation.
  - constructor.
  - by_computation.
  - apply not_contains_by_search. by_computation.
Defined.

Lemma proxy_needs_its_own_segment_witness :
  negb (Z.eqb (JS.search
                 "UseDevelopmentStorage=true;Note=DevelopmentStorageProxyUri=http://p"
                 "DevelopmentStorageProxyUri=") (-1)) = true /\
  getProxyUriFromDevConnString
    "UseDevelopmentStorage=true;Note=DevelopmentStorageProxyUri=http://p"
  = Ok "".
Proof.
  split; [by_computation|].
  apply proxy_needs_its_own_segment.
  change (JS.split ";"
            "UseDevelopmentStorage=true;Note=DevelopmentStorageProxyUri=http://p")
    with ["UseDevelopmentStorage=true";
          "Note=DevelopmentStorageProxyUri=http://p"].
  repeat constructor.
Defined.

Lemma explicit_endpoint_witness :
  parse "DefaultEndpointsProtocol=ftp;AccountName=acct;AccountKey=YWJj;BlobEndpoint=https://custom.example.com/"
  = Ok (AccountConnString "https://custom.example.com" "acct"
          (Node.Buffer_from_base64 "YWJj") "").
Proof.
  refine (@explicit_endpoint CoreHttp.parse Node.Buffer_from_base64
            emulatorConnectionString
            "DefaultEndpointsProtocol=ftp;AccountName=acct;AccountKey=YWJj;BlobEndpoint=https://custom.example.com/"
            "https://custom.example.com/" "acct" "YWJj" _ _ _ _ _ _ _ _ _);
    discharge.
Defined.

Lemma invalid_protocol_first_witness :
  parse "DefaultEndpointsProtocol=ftp;AccountName=;AccountKey=" =
    Throw (Error msgProtocol) /\
  failsWith (parse "DefaultEndpointsProtocol=ftp;AccountName=;AccountKey=")
    InvalidProtocol.
Proof.
  refine (@invalid_protocol_first CoreHttp.parse Node.Buffer_from_base64
            emulatorConnectionString
            "DefaultEndpointsProtocol=ftp;AccountName=;AccountKey="
            "" "" "" "ftp" _ _ _ _ _ _ _ _ _ _);
    discharge.
Defined.

Lemma invalid_suffix_second_witness :
  parse "DefaultEndpointsProtocol=https;AccountName=;AccountKey=" =
    Throw (Error msgSuffix) /\
  failsWith (parse "DefaultEndpointsProtocol=https;AccountName=;AccountKey=")
    InvalidEndpointSuffix.
Proof.
  refine (@invalid_suffix_second CoreHttp.parse Node.Buffer_from_base64
            emulatorConnectionString
            "DefaultEndpointsProtocol=https;AccountName=;AccountKey="
            "" "" "" "https" _ _ _ _ _ _ _ _ _ _);
    discharge.
Defined.

Lemma invalid_account_name_witness :
  parse "DefaultEndpointsProtocol=https;AccountKey=YWJj;BlobEndpoint=https://acct.blob.core.windows.net"
    = Throw (Error msgAccountName) /\
  failsWith
    (parse "DefaultEndpointsProtocol=https;AccountKey=YWJj;BlobEndpoint=https://acct.blob.core.windows.net")
    InvalidAccountName.
Proof.
  refine (@invalid_account_name CoreHttp.parse Node.Buffer_from_base64
            emulatorConnectionString
            "DefaultEndpointsProtocol=https;AccountKey=YWJj;BlobEndpoint=https://acct.blob.core.windows.net"
            "https://acct.blob.core.windows.net" "YWJj" _ _ _ _ _ _ _);
    discharge.
Defined.

Lemma invalid_account_key_witness :
  parse "DefaultEndpointsProtocol=https;AccountName=acct;AccountKey=;BlobEndpoint=https://acct.blob.core.windows.net"
    = Throw (Error msgAccountKey) /\
  failsWith
    (parse "DefaultEndpointsProtocol=https;AccountName=acct;AccountKey=;BlobEndpoint=https://acct.blob.core.windows.net")
    InvalidAccountKey.
Proof.
  refine (@invalid_account_key CoreHttp.parse Node.Buffer_from_base64
            emulatorConnectionString
            "DefaultEndpointsProtocol=https;AccountName=acct;AccountKey=;BlobEndpoint=https://acct.blob.core.windows.net"
            "https://acct.blob.core.windows.net" "acct" "" _ _ _ _ _ _ _ _ _);
    discharge.
Defined.

Lemma sas_missing_signature_witness :
  parse "BlobEndpoint=https://foo.blob.core.windows.net" =
    Throw (Error msgSas) /\
  failsWith (parse "BlobEndpoint=https://foo.blob.core.windows.net")
    InvalidSharedAccessSignature.
Proof.
  refine (@sas_missing_signature CoreHttp.parse Node.Buffer_from_base64
            emulatorConnectionString
            "BlobEndpoint=https://foo.blob.core.windows.net"
            "https://foo.blob.core.windows.net" "foo" _ _ _ _ _ _);
    discharge.
Defined.

Lemma sas_host_without_path_witness :
  parse "BlobEndpoint=https://storage.example.com;SharedAccessSignature=sig" =
    Throw (Error msgUnable) /\
  failsWith
    (parse "BlobEndpoint=https://storage.example.com;SharedAccessSignature=sig")
    UnparseableHost.
Proof.
  refine (@sas_host_without_path CoreHttp.parse Node.Buffer_from_base64
            emulatorConnectionString
            "BlobEndpoint=https://storage.example.com;SharedAccessSignature=sig"
            "https://storage.example.com" "sig" "storage.example.com"
            _ _ _ _ _ _ _);
    discharge.
Defined.

Lemma parser_exceptions_witness :
  parse Sample.missingKey = Throw (Error msgUnable) /\
  (Error msgUnable = TypeError \/
   exists m, Error msgUnable = Error m /\
     In m [msgProtocol; msgSuffix; msgAccountName; msgAccountKey;
           msgUnable; msgBlobEndpoint; msgSas]).
Proof.
  assert (H : parse Sample.missingKey = Throw (Error msgUnable))
    by by_computation.
  split; [exact H|].
  exact (@parser_exceptions CoreHttp.parse Node.Buffer_from_base64
           emulatorConnectionString Sample.missingKey (Error msgUnable) H).
Defined.

Lemma endpoint_error_unreachable_witness :
  getHost (CoreHttp.parse "") = None /\
  parse Sample.sasWithoutEndpoint <> Throw (Error msgBlobEndpoint) /\
  ~ failsWith (parse Sample.sasWithoutEndpoint) InvalidBlobEndpoint.
Proof.
  assert (H : getHost (CoreHttp.parse "") = None) by by_computation.
  split; [exact H|].
  exact (@endpoint_error_unreachable CoreHttp.parse Node.Buffer_from_base64
           emulatorConnectionString Sample.sasWithoutEndpoint H).
Defined.

Lemma emulator_ignores_other_fields_witness :
  exists proxyUri,
    getProxyUriFromDevConnString
      "UseDevelopmentStorage=true;AccountName=other;AccountKey=AAAA" =
      Ok proxyUri /\
    parse "UseDevelopmentStorage=true;AccountName=other;AccountKey=AAAA" =
      Ok (AccountConnString "http://127.0.0.1:10000/devstoreaccount1"
            "devstoreaccount1" Sample.emulatorKey proxyUri).
Proof.
  refine (@emulator_ignores_other_fields CoreHttp.parse
            Node.Buffer_from_base64 emulatorConnectionString
            "UseDevelopmentStorage=true;AccountName=other;AccountKey=AAAA"
            "http://127.0.0.1:10000/devstoreaccount1" "devstoreaccount1"
            Sample.emulatorKey _ _); by_computation.
Defined.

Lemma plain_proxy_is_empty_witness :
  parse "DefaultEndpointsProtocol=https;AccountName=acct;AccountKey=YWJj;EndpointSuffix=core.windows.net;DevelopmentStorageProxyUri=http://p"
  = Ok (AccountConnString "https://acct.blob.core.windows.net" "acct"
          ["a"; "b"; "c"]%byte "") /\
  "" = "".
Proof.
  assert (H : parse "DefaultEndpointsProtocol=https;AccountName=acct;AccountKey=YWJj;EndpointSuffix=core.windows.net;DevelopmentStorageProxyUri=http://p"
    = Ok (AccountConnString "https://acct.blob.core.windows.net" "acct"
            ["a"; "b"; "c"]%byte "")) by by_computation.
  split; [exact H|].
  refine (@plain_proxy_is_empty CoreHttp.parse Node.Buffer_from_base64
            emulatorConnectionString _ _ "" _ H _); by_computation.
Defined.

Lemma sas_credential_consistent_witness :
  "https://foo.blob.core.example.com" <> "" /\
  getAccountNameFromUrl CoreHttp.parse "https://foo.blob.core.example.com" =
    Ok "foo" /\
  getValueInConnString (effective emulatorConnectionString Sample.sasForm)
    "SharedAccessSignature" = Ok "sig" /\
  exists blob,
    getValueInConnString (effective emulatorConnectionString Sample.sasForm)
      "BlobEndpoint" = Ok blob /\
    "https://foo.blob.core.example.com" = stripSlash blob.
Proof.
  refine (@sas_credential_consistent CoreHttp.parse Node.Buffer_from_base64
            emulatorConnectionString Sample.sasForm
            "https://foo.blob.core.example.com" "foo" "sig" _).
  by_computation.
Defined.

Lemma parsed_url_not_empty_witness :
  "https://acct.blob.core.windows.net" <> "".
Proof.
  refine (@parsed_url_not_empty CoreHttp.parse Node.Buffer_from_base64
            emulatorConnectionString Sample.accountKeyForm
            (AccountConnString "https://acct.blob.core.windows.net" "acct"
               ["a"; "b"; "c"]%byte "") _).
  by_computation.
Defined.

Lemma blob_host_without_account_witness :
  getPath (CoreHttp.parse "https://.blob.core.windows.net/acct") =
    Some "/acct" /\
  getAccountNameFromUrl CoreHttp.parse "https://.blob.core.windows.net/acct" =
    Throw (Error msgUnable).
Proof.
  split; [by_computation|].
  refine (@blob_host_without_account CoreHttp.parse
            "https://.blob.core.windows.net/acct" ".blob.core.windows.net"
            _ _ _); by_computation.
Defined.

Lemma handler_answer_witness :
  snd (serve (mkContext None false) (Some Sample.accountKeyForm) 0) = None /\
  exists cs u name key proxyUri token,
    Some Sample.accountKeyForm = Some cs /\
    parse cs = Ok (AccountConnString u name key proxyUri) /\
    issue 0 cs "images" "c" = Ok token /\
    url token = u /\
    fst (serve (mkContext None false) (Some Sample.accountKeyForm) 0) =
      mkContext (Some token) true.
Proof.
  assert (H : snd (serve (mkContext None false)
                     (Some Sample.accountKeyForm) 0) = None)
    by by_computation.
  split; [exact H|].
  exact (@handler_answer CoreHttp.parse Node.Buffer_from_base64
           emulatorConnectionString FakeSdk.Buffer_toString_base64
           string FakeSdk.ContainerSASPermissions_parse Z
           FakeSdk.addHours FakeSdk.generateBlobSASQueryParameters
           (mkContext None false) (Some Sample.accountKeyForm) 0%Z H).
Defined.

Lemma handler_type_error_witness :
  serve (mkContext None false) (Some Sample.sasForm) 0 =
    (mkContext None false, Some TypeError) /\
  serve (mkContext None false) None 0 =
    (mkContext None false, Some TypeError).
Proof.
  split.
  - refine (@handler_type_error CoreHttp.parse Node.Buffer_from_base64
              emulatorConnectionString FakeSdk.Buffer_toString_base64
              string FakeSdk.ContainerSASPermissions_parse Z
              FakeSdk.addHours FakeSdk.generateBlobSASQueryParameters
              (mkContext None false) (Some Sample.sasForm) 0%Z _).
    right. exists Sample.sasForm, "https://foo.blob.core.example.com",
      "foo", "sig".
    split; by_computation.
  - refine (@handler_type_error CoreHttp.parse Node.Buffer_from_base64
              emulatorConnectionString FakeSdk.Buffer_toString_base64
              string FakeSdk.ContainerSASPermissions_parse Z
              FakeSdk.addHours FakeSdk.generateBlobSASQueryParameters
              (mkContext None false) None 0%Z _).
    left. reflexivity.
Defined.

Lemma blob_name_without_dot_witness :
  FrontEnd.buildBlobName "0.8f3a" "README" = "_8f3aREADME".
Proof.
  refine (@blob_name_without_dot "0.8f3a" "README" _). by_computation.
Defined.

Lemma blob_name_keeps_extension_witness :
  FrontEnd.buildBlobName "0.8f3a" "photo.final.png" = "photo.final_8f3a.png" /\
  FrontEnd.buildBlobName "0.8f3a" ".gitignore" = "_8f3a.gitignore".
Proof.
  split.
  - refine (@blob_name_keeps_extension "0.8f3a" "photo.final" "png" _).
    by_computation.
  - refine (@blob_name_keeps_extension "0.8f3a" "" "gitignore" _).
    by_computation.
Defined.
